(** * counter.c: a gated frequency counter on an ATmega (Timer 1 + Timer 2)

    Shallow embedding of [counter.c].  The C variables and the I/O registers
    the program touches are the fields of the record [machine]; every
    function and interrupt handler of the source is an action of a small
    monad that reads the current machine and logs, in program order, the
    stores and the display calls it performs.  The machine after an action
    is the machine obtained by replaying its log, so the order of the stores
    inside a handler is part of the model.

    Widths are those of avr-gcc: [char] 8 bits, [int] 16 bits, [long] 32
    bits.  Integers are [Z] with the wrap-around written out. *)

From Stdlib Require Import ZArith List String Ascii Bool Lia.
Import ListNotations.
Open Scope Z_scope.

(** ** Integer conversions of the C code *)

Definition wrap (w : Z) (v : Z) : Z := v mod 2 ^ w.

(** Conversion to a signed [w]-bit type (two's complement, as avr-gcc does). *)
Definition to_signed (w : Z) (v : Z) : Z :=
  let u := wrap w v in
  if u <? 2 ^ (w - 1) then u else u - 2 ^ w.

Definition to_int (v : Z) : Z := to_signed 16 v.
Definition to_long (v : Z) : Z := to_signed 32 v.
Definition to_ulong (v : Z) : Z := wrap 32 v.

(** [_BV(bit)] of avr-libc. *)
Definition _BV (bit : Z) : Z := Z.shiftl 1 bit.

(** Bit numbers from <avr/io.h> for the ATmega 48/88/168/328 family. *)
Definition TOV1 : Z := 0.
Definition TOIE1 : Z := 0.
Definition TOV2 : Z := 0.
Definition TOIE2 : Z := 0.

(** ** The timing constants (lines 85-86) *)

Definition ONE_SEC_GATE : Z := 10000000 / 512 / 256.
Definition LAST_SEC : Z := 256 - 29 * 256 / 100.

(** The clock the comments of the source assume: a 20 MHz processor clock
    and the 1024 tap of the prescaler, one Timer 2 tick every 51.2 us. *)
Definition F_CPU : Z := 20000000.
Definition PRESCALE : Z := 1024.

(** ** The machine: the C globals and the I/O registers *)

Record machine : Type := mkMachine {
  flags : Z;        (* flags.Val: bit 0 is dataReady, bit 1 is lastSec *)
  secTimer : Z;     (* volatile unsigned char *)
  freqCounter : Z;  (* volatile unsigned char *)
  TCCR1A : Z;
  TCCR1B : Z;
  TCNT1 : Z;        (* 16-bit *)
  TIFR1 : Z;
  TIMSK1 : Z;
  TCCR2A : Z;
  TCCR2B : Z;
  TCNT2 : Z;        (* 8-bit *)
  TIFR2 : Z;
  TIMSK2 : Z;
  TCNT0 : Z         (* 8-bit, the register of Timer 0 *)
}.

(** The places the program assigns to. *)
Inductive lvalue : Type :=
| Lflags_Val | Lflags_dataReady | Lflags_lastSec
| LsecTimer | LfreqCounter
| LTCCR1A | LTCCR1B | LTCNT1 | LTIFR1 | LTIMSK1
| LTCCR2A | LTCCR2B | LTCNT2 | LTIFR2 | LTIMSK2
| LTCNT0.

(** Positions of the two flags in the byte of the union [FLAGS_TYPE]. *)
Definition dataReady_bit : Z := 0.
Definition lastSec_bit : Z := 1.

Definition dataReady (s : machine) : bool := Z.testbit (flags s) dataReady_bit.
Definition lastSec (s : machine) : bool := Z.testbit (flags s) lastSec_bit.

(** Width in bits of each place. *)
Definition width (l : lvalue) : Z :=
  match l with
  | Lflags_dataReady | Lflags_lastSec => 1
  | LTCNT1 => 16
  | _ => 8
  end.

Definition read (l : lvalue) (s : machine) : Z :=
  match l with
  | Lflags_Val => flags s
  | Lflags_dataReady => Z.b2z (dataReady s)
  | Lflags_lastSec => Z.b2z (lastSec s)
  | LsecTimer => secTimer s
  | LfreqCounter => freqCounter s
  | LTCCR1A => TCCR1A s
  | LTCCR1B => TCCR1B s
  | LTCNT1 => TCNT1 s
  | LTIFR1 => TIFR1 s
  | LTIMSK1 => TIMSK1 s
  | LTCCR2A => TCCR2A s
  | LTCCR2B => TCCR2B s
  | LTCNT2 => TCNT2 s
  | LTIFR2 => TIFR2 s
  | LTIMSK2 => TIMSK2 s
  | LTCNT0 => TCNT0 s
  end.

Definition assign_bit (byte : Z) (bit : Z) (v : Z) : Z :=
  if Z.odd v then Z.setbit byte bit else Z.clearbit byte bit.

(** [write l v s]: the machine after the value [v], already converted to the
    width of [l], is stored in [l].  A bit-field store changes one bit of the
    flag byte.  The interrupt flag registers TIFR1 and TIFR2 are
    write-one-to-clear: the bits written as 1 are cleared. *)
Definition write (l : lvalue) (v : Z) (s : machine) : machine :=
  let '(mkMachine fl st fc a1 b1 c1 f1 m1 a2 b2 c2 f2 m2 c0) := s in
  match l with
  | Lflags_Val => mkMachine v st fc a1 b1 c1 f1 m1 a2 b2 c2 f2 m2 c0
  | Lflags_dataReady =>
      mkMachine (assign_bit fl dataReady_bit v) st fc a1 b1 c1 f1 m1 a2 b2 c2 f2 m2 c0
  | Lflags_lastSec =>
      mkMachine (assign_bit fl lastSec_bit v) st fc a1 b1 c1 f1 m1 a2 b2 c2 f2 m2 c0
  | LsecTimer => mkMachine fl v fc a1 b1 c1 f1 m1 a2 b2 c2 f2 m2 c0
  | LfreqCounter => mkMachine fl st v a1 b1 c1 f1 m1 a2 b2 c2 f2 m2 c0
  | LTCCR1A => mkMachine fl st fc v b1 c1 f1 m1 a2 b2 c2 f2 m2 c0
  | LTCCR1B => mkMachine fl st fc a1 v c1 f1 m1 a2 b2 c2 f2 m2 c0
  | LTCNT1 => mkMachine fl st fc a1 b1 v f1 m1 a2 b2 c2 f2 m2 c0
  | LTIFR1 => mkMachine fl st fc a1 b1 c1 (Z.ldiff f1 v) m1 a2 b2 c2 f2 m2 c0
  | LTIMSK1 => mkMachine fl st fc a1 b1 c1 f1 v a2 b2 c2 f2 m2 c0
  | LTCCR2A => mkMachine fl st fc a1 b1 c1 f1 m1 v b2 c2 f2 m2 c0
  | LTCCR2B => mkMachine fl st fc a1 b1 c1 f1 m1 a2 v c2 f2 m2 c0
  | LTCNT2 => mkMachine fl st fc a1 b1 c1 f1 m1 a2 b2 v f2 m2 c0
  | LTIFR2 => mkMachine fl st fc a1 b1 c1 f1 m1 a2 b2 c2 (Z.ldiff f2 v) m2 c0
  | LTIMSK2 => mkMachine fl st fc a1 b1 c1 f1 m1 a2 b2 c2 f2 v c0
  | LTCNT0 => mkMachine fl st fc a1 b1 c1 f1 m1 a2 b2 c2 f2 m2 v
  end.

(** ** Effects and the action monad *)

(** Calls into the LCD driver [lcd/hd44780.h]; the driver is outside the
    program, so a call is recorded and nothing more. *)
Inductive lcd_call : Type :=
| hd44780_init
| hd44780_putstr (str : string)
| hd44780_clearLine (line : Z).

Inductive effect : Type :=
| Store (l : lvalue) (v : Z)
| Lcd (c : lcd_call)
| Sei
| Delay_ms (ms : Z).

Definition exec_effect (s : machine) (e : effect) : machine :=
  match e with
  | Store l v => write l v s
  | _ => s
  end.

Definition replay (log : list effect) (s : machine) : machine :=
  fold_left exec_effect log s.

(** An action reads the machine it starts in and yields a value and the log
    of what it did. *)
Definition M (A : Type) : Type := machine -> A * list effect.

Definition ret {A : Type} (a : A) : M A := fun _ => (a, []).

Definition bind {A B : Type} (m : M A) (k : A -> M B) : M B :=
  fun s =>
    let (a, l1) := m s in
    let (b, l2) := k a (replay l1 s) in
    (b, l1 ++ l2).

Declare Scope action_scope.
Delimit Scope action_scope with action.
Notation "x <- m ;; k" := (bind m (fun x => k))
  (at level 61, m at next level, right associativity) : action_scope.
Notation "m ;; k" := (bind m (fun _ => k))
  (at level 61, right associativity) : action_scope.
Open Scope action_scope.

Definition load (l : lvalue) : M Z := fun s => (read l s, []).
Definition store (l : lvalue) (v : Z) : M unit :=
  fun _ => (tt, [Store l (wrap (width l) v)]).
Definition emit (e : effect) : M unit := fun _ => (tt, [e]).

(** [--x] and [x++] on an lvalue. *)
Definition pre_dec (l : lvalue) : M Z :=
  v <- load l ;; store l (v - 1) ;; load l.
Definition post_inc (l : lvalue) : M Z :=
  v <- load l ;; store l (v + 1) ;; ret v.

Definition log_of {A : Type} (m : M A) (s : machine) : list effect := snd (m s).
Definition value_of {A : Type} (m : M A) (s : machine) : A := fst (m s).
Definition run {A : Type} (m : M A) (s : machine) : machine :=
  replay (log_of m s) s.

(** ** The functions of counter.c *)

Definition t1_init : M unit :=
  store LTCCR1A 0 ;;
  store LTCCR1B 0 ;;
  store LTCNT1 0 ;;
  store LTIFR1 (_BV TOV1) ;;
  store LTIMSK1 (_BV TOIE1).

Definition t2_init : M unit :=
  store LTCCR2A 0 ;;
  store LTCCR2B 0 ;;
  store LTCNT2 0 ;;
  store LTIFR2 (_BV TOV2) ;;
  store LTIMSK2 (_BV TOIE2).

Definition timer1Off : M unit := store LTCCR1B 0.
Definition timer1On : M unit := store LTCCR1B 6.   (* 0b00000110 *)
Definition timer2Off : M unit := store LTCCR2B 0.
Definition timer2On : M unit := store LTCCR2B 7.    (* 0b00000111 *)

(** [int getTimer1(void) { return(TCNT1); }]: the 16-bit register converted
    to the return type [int]. *)
Definition getTimer1 : M Z :=
  t <- load LTCNT1 ;; ret (to_int t).

Definition ISR_TIMER1_OVF_vect : M unit :=
  post_inc LfreqCounter ;; ret tt.

Definition ISR_TIMER2_OVF_vect : M unit :=
  l <- load Lflags_lastSec ;;
  if l =? 1 then
    timer1Off ;;
    timer2Off ;;
    store Lflags_dataReady 1 ;;
    store Lflags_lastSec 0
  else
    n <- pre_dec LsecTimer ;;
    if n =? 0 then
      store LTCNT0 LAST_SEC ;;
      store Lflags_lastSec 1
    else ret tt.

(** Modelled from the spec: [ltoa] is avr-libc's (<stdlib.h>) and is not part
    of the source; it yields the spec's "decimal ASCII string" of its
    argument.  Its parameter has type [long], so the [unsigned long] passed by
    [main] is first converted to a signed 32-bit value, and a negative value
    is printed with a leading minus sign. *)
Definition digit_char (d : Z) : ascii := ascii_of_nat (48 + Z.to_nat d).

Fixpoint utoa_acc (fuel : nat) (n : Z) (acc : string) : string :=
  match fuel with
  | O => acc
  | S fuel' =>
      let acc' := String (digit_char (n mod 10)) acc in
      if n / 10 =? 0 then acc' else utoa_acc fuel' (n / 10) acc'
  end.

Definition ltoa (val : Z) : string :=
  let v := to_long val in
  if v <? 0 then String "-"%char (utoa_acc 10 (- v) EmptyString)
  else utoa_acc 10 v EmptyString.

(** Lines 218-219 of [main]:
      frequency = (unsigned long)freqCounter * 65536UL;
      frequency += (unsigned long)getTimer1();                              *)
Definition main_frequency : M Z :=
  fc <- load LfreqCounter ;;
  let frequency := to_ulong (to_ulong fc * 65536) in
  t <- getTimer1 ;;
  let frequency := to_ulong (frequency + to_ulong t) in
  ret frequency.

(** [main] up to the endless loop (lines 191-209).  The action logs what
    these lines do, in order; the time the banner and the delay take is not
    part of it (see [start]). *)
Definition main_setup : M unit :=
  emit (Lcd hd44780_init) ;;
  store LsecTimer ONE_SEC_GATE ;;
  store LfreqCounter 0 ;;
  store Lflags_Val 0 ;;
  t2_init ;;
  t1_init ;;
  timer2On ;;
  timer1On ;;
  emit Sei ;;
  emit (Lcd (hd44780_putstr "Frequency Counter")) ;;
  emit (Delay_ms 1000).

(** One pass through the body of [while(1)] (lines 214-233). *)
Definition main_loop_body : M unit :=
  d <- load Lflags_dataReady ;;
  if d =? 1 then
    store Lflags_dataReady 0 ;;
    frequency <- main_frequency ;;
    let tempStr := ltoa frequency in
    emit (Lcd (hd44780_clearLine 0)) ;;
    emit (Lcd (hd44780_putstr tempStr)) ;;
    store LsecTimer ONE_SEC_GATE ;;
    store LfreqCounter 0 ;;
    t2_init ;;
    t1_init ;;
    timer2On ;;
    timer1On
  else ret tt.

(** What an action sends to the display. *)
Definition lcd_calls (log : list effect) : list lcd_call :=
  flat_map (fun e => match e with Lcd c => [c] | _ => [] end) log.

(** ** The timers and the whole system

    The hardware side, as the comments of the source describe it: Timer 1
    counts the falling edges of the T1 pin while its clock select is
    [0b110], Timer 2 counts prescaler ticks while its clock select is
    [0b111]; a counter that wraps to zero raises its overflow interrupt,
    which runs the handler when the interrupt is enabled in TIMSK and is
    left pending in TIFR otherwise.  Handlers and the loop body run to
    completion: the two handlers do not preempt each other, and while the
    loop body runs its ready branch both timers are stopped. *)

Definition raise_TOV1 (s : machine) : machine :=
  let '(mkMachine fl st fc a1 b1 c1 f1 m1 a2 b2 c2 f2 m2 c0) := s in
  mkMachine fl st fc a1 b1 c1 (Z.setbit f1 TOV1) m1 a2 b2 c2 f2 m2 c0.

Definition raise_TOV2 (s : machine) : machine :=
  let '(mkMachine fl st fc a1 b1 c1 f1 m1 a2 b2 c2 f2 m2 c0) := s in
  mkMachine fl st fc a1 b1 c1 f1 m1 a2 b2 c2 (Z.setbit f2 TOV2) m2 c0.

Definition timer1_overflow (s : machine) : machine :=
  if Z.testbit (TIMSK1 s) TOIE1 then run ISR_TIMER1_OVF_vect s
  else raise_TOV1 s.

Definition timer2_overflow (s : machine) : machine :=
  if Z.testbit (TIMSK2 s) TOIE2 then run ISR_TIMER2_OVF_vect s
  else raise_TOV2 s.

(** One falling edge on the T1 pin. *)
Definition t1_edge (s : machine) : machine :=
  if TCCR1B s =? 6 then
    let s' := write LTCNT1 (wrap 16 (TCNT1 s + 1)) s in
    if TCNT1 s' =? 0 then timer1_overflow s' else s'
  else s.

(** One tick of the 1024 prescaler tap. *)
Definition t2_tick (s : machine) : machine :=
  if TCCR2B s =? 7 then
    let s' := write LTCNT2 (wrap 8 (TCNT2 s + 1)) s in
    if TCNT2 s' =? 0 then timer2_overflow s' else s'
  else s.

Inductive event : Type := T1_edge | T2_tick | Main_loop.

Definition step (e : event) (s : machine) : machine :=
  match e with
  | T1_edge => t1_edge s
  | T2_tick => t2_tick s
  | Main_loop => run main_loop_body s
  end.

Definition steps (es : list event) (s : machine) : machine :=
  fold_left (fun s e => step e s) es s.

(** Registers and variables after reset and C start-up: all zero. *)
Definition power_on : machine := mkMachine 0 0 0 0 0 0 0 0 0 0 0 0 0 0.

(** The machine when [main] executes [sei()]: every store of the set-up is
    done and the first gate opens.  The banner and [_delay_ms(1000)] that
    follow store nothing, and both timers and the interrupts are already on
    while they run: the ticks and edges that arrive during them are events
    of the system like any other (a loop pass on an open gate changes
    nothing, so events are not told apart by whether [main] has reached its
    loop). *)
Definition start : machine := run main_setup power_on.

Inductive reachable : machine -> Prop :=
| reach_start : reachable start
| reach_step : forall e s, reachable s -> reachable (step e s).

(** [n] prescaler ticks in a row; [n] input edges in a row. *)
Definition ticks (n : nat) (s : machine) : machine := Nat.iter n t2_tick s.
Definition edges (n : nat) (s : machine) : machine := Nat.iter n t1_edge s.

(** Number of prescaler ticks until [dataReady] is raised, or [None] when it
    is not raised within [fuel] ticks. *)
Fixpoint ticks_until_ready (fuel : nat) (s : machine) : option Z :=
  if dataReady s then Some 0
  else match fuel with
       | O => None
       | S fuel' => option_map Z.succ (ticks_until_ready fuel' (t2_tick s))
       end.

(** [k] runs of a handler in a row. *)
Definition overflows1 (k : nat) (s : machine) : machine :=
  Nat.iter k (run ISR_TIMER1_OVF_vect) s.
Definition overflows2 (k : nat) (s : machine) : machine :=
  Nat.iter k (run ISR_TIMER2_OVF_vect) s.

(** The machine somewhere inside an action: after a prefix of its log. *)
Definition inside {A : Type} (m : M A) (s s' : machine) : Prop :=
  exists pre post, log_of m s = pre ++ post /\ s' = replay pre s.

(** An effect that makes [dataReady] 1: a store of 1 in the bit-field, or a
    store in the whole byte with bit 0 set. *)
Definition raises_dataReady (e : effect) : bool :=
  match e with
  | Store Lflags_dataReady v => Z.odd v
  | Store Lflags_Val v => Z.testbit v dataReady_bit
  | _ => false
  end.

(** Both clock selects are zero: neither timer counts. *)
Definition timers_stopped (s : machine) : Prop :=
  TCCR1B s = 0 /\ TCCR2B s = 0.

(** Distance between a gate of [n] Timer 2 ticks and one second, in processor
    clock cycles: a tick is [PRESCALE] cycles, a second is [F_CPU] cycles. *)
Definition gate_error_cycles (n : Z) : Z := Z.abs (n * PRESCALE - F_CPU).

(** The count the pair (freqCounter, TCNT1) stands for. *)
Definition pulse_count (s : machine) : Z := freqCounter s * 65536 + TCNT1 s.

(** The machine with TCNT0 put aside: two machines are compared in every
    variable and register but TCNT0. *)
Definition forget_TCNT0 (s : machine) : machine := write LTCNT0 0 s.

(** The state of the pulse counter while Timer 1 counts. *)
Definition counting (s : machine) : Prop :=
  TCCR1B s = 6 /\ TIMSK1 s = 1 /\
  0 <= freqCounter s < 256 /\ 0 <= TCNT1 s < 65536.

(** What is true of the machine between the events of the system. *)
Definition system_inv (s : machine) : Prop :=
  (flags s = 0 \/ flags s = 1 \/ flags s = 2) /\
  (flags s = 1 -> TCCR2B s = 0) /\
  TIFR1 s = 0 /\ TIFR2 s = 0 /\ TIMSK1 s = 1 /\ TIMSK2 s = 1 /\
  TCCR1A s = 0 /\ TCCR2A s = 0.

(** ** The open gate *)

(** Number of prescaler ticks and of input edges in a run of events. *)
Fixpoint count_ticks (es : list event) : Z :=
  match es with
  | [] => 0
  | T2_tick :: es' => 1 + count_ticks es'
  | _ :: es' => count_ticks es'
  end.

Fixpoint count_edges (es : list event) : Z :=
  match es with
  | [] => 0
  | T1_edge :: es' => 1 + count_edges es'
  | _ :: es' => count_edges es'
  end.

(** No pass of the loop body among the events. *)
Definition no_main_loop (es : list event) : Prop :=
  Forall (fun e => e <> Main_loop) es.

(** The Gate Timer runs with its overflow interrupt enabled and no result is
    pending. *)
Definition gate_open (s : machine) : Prop :=
  dataReady s = false /\
  TCCR2B s = 7 /\ Z.testbit (TIMSK2 s) TOIE2 = true /\
  0 <= TCNT2 s < 256 /\ 0 <= secTimer s < 256.

(** Overflows the handler still counts before it raises [lastSec]: the
    pre-decrement of an unsigned char that holds 0 gives 255, so a zero
    [secTimer] stands for 256. *)
Definition rollovers_left (s : machine) : Z :=
  if lastSec s then 0
  else if secTimer s =? 0 then 256 else secTimer s.

(** Prescaler ticks from [s] to the overflow that closes the gate. *)
Definition remaining (s : machine) : Z :=
  rollovers_left s * 256 + (256 - TCNT2 s).

(** * Properties *)

(** ** The monad and the flag byte *)

Lemma dataReady_flags (s : machine) :
  (flags s = 0 -> dataReady s = false) /\
  (flags s = 1 -> dataReady s = true) /\
  (flags s = 2 -> dataReady s = false).
Proof. unfold dataReady; repeat split; intros ->; reflexivity. Qed.

Lemma lastSec_flags (s : machine) :
  (flags s = 0 -> lastSec s = false) /\
  (flags s = 1 -> lastSec s = false) /\
  (flags s = 2 -> lastSec s = true).
Proof. unfold lastSec; repeat split; intros ->; reflexivity. Qed.

(** ** The handlers, store by store *)

Lemma ISR_TIMER2_log_final (s : machine) :
  lastSec s = true ->
  log_of ISR_TIMER2_OVF_vect s =
  [Store LTCCR1B 0; Store LTCCR2B 0; Store Lflags_dataReady 1; Store Lflags_lastSec 0].
Proof.
  intros H. unfold log_of, ISR_TIMER2_OVF_vect, bind, load, read.
  rewrite H. reflexivity.
Qed.

Lemma ISR_TIMER2_log_counting (s : machine) :
  lastSec s = false ->
  log_of ISR_TIMER2_OVF_vect s =
  Store LsecTimer (wrap 8 (secTimer s - 1)) ::
  (if wrap 8 (secTimer s - 1) =? 0
   then [Store LTCNT0 LAST_SEC; Store Lflags_lastSec 1] else []).
Proof.
  intros H. unfold log_of, ISR_TIMER2_OVF_vect, bind, load, read.
  rewrite H. destruct s; simpl.
  destruct (wrap 8 (secTimer0 - 1) =? 0); reflexivity.
Qed.

Lemma ISR_TIMER1_log (s : machine) :
  log_of ISR_TIMER1_OVF_vect s = [Store LfreqCounter (wrap 8 (freqCounter s + 1))].
Proof. reflexivity. Qed.
Lemma main_frequency_value (s : machine) :
  value_of main_frequency s =
  to_ulong (to_ulong (to_ulong (freqCounter s) * 65536) + to_ulong (to_int (TCNT1 s))).
Proof. reflexivity. Qed.

Lemma main_loop_log_idle (s : machine) :
  dataReady s = false -> log_of main_loop_body s = [].
Proof.
  intros H. unfold log_of, main_loop_body, bind, load, read.
  rewrite H. reflexivity.
Qed.

Lemma main_loop_log_ready (s : machine) :
  dataReady s = true ->
  log_of main_loop_body s =
  [Store Lflags_dataReady 0;
   Lcd (hd44780_clearLine 0);
   Lcd (hd44780_putstr (ltoa (value_of main_frequency s)));
   Store LsecTimer ONE_SEC_GATE; Store LfreqCounter 0;
   Store LTCCR2A 0; Store LTCCR2B 0; Store LTCNT2 0; Store LTIFR2 1; Store LTIMSK2 1;
   Store LTCCR1A 0; Store LTCCR1B 0; Store LTCNT1 0; Store LTIFR1 1; Store LTIMSK1 1;
   Store LTCCR2B 7; Store LTCCR1B 6].
Proof.
  intros H. unfold log_of, main_loop_body, bind at 1, load, read.
  rewrite H. destruct s. reflexivity.
Qed.

(** ** The acquisition loop while no result is ready *)

(** C10: a pass through the loop body that reads [dataReady] as 0 performs
    no store and no display call: its log is empty, so the flags, secTimer,
    freqCounter and every timer register keep their values.  Conversely, a
    pass that stores anything or calls the display has read [dataReady]
    as 1. *)
Theorem main_loop_idle_pass_writes_nothing (s : machine) :
  (dataReady s = false ->
   log_of main_loop_body s = [] /\
   lcd_calls (log_of main_loop_body s) = [] /\
   run main_loop_body s = s) /\
  (log_of main_loop_body s <> [] -> dataReady s = true).
Proof.
  split.
  - intros H. unfold run. rewrite (main_loop_log_idle s H). auto.
  - intros H. destruct (dataReady s) eqn:E; [reflexivity|].
    exfalso. apply H. now apply main_loop_log_idle.
Qed.

(** An idle pass in the middle of a gate, and the pass after its close. *)
Lemma main_loop_idle_pass_writes_nothing_witness :
  let s := ticks (Z.to_nat 5000) start in
  let r := ticks (Z.to_nat 19712) start in
  dataReady s = false /\
  (log_of main_loop_body s = [] /\
   lcd_calls (log_of main_loop_body s) = [] /\
   run main_loop_body s = s) /\
  log_of main_loop_body r <> [] /\ dataReady r = true.
Proof.
  intros s r.
  assert (Hs : dataReady s = false) by (vm_compute; reflexivity).
  assert (Hr : log_of main_loop_body r <> []) by (vm_compute; discriminate).
  split; [exact Hs|].
  split; [exact (proj1 (main_loop_idle_pass_writes_nothing s) Hs)|].
  split; [exact Hr|].
  exact (proj2 (main_loop_idle_pass_writes_nothing r) Hr).
Defined.

(** ** Stores and the two flags *)

Lemma testbit_assign_bit_same (byte bit v : Z) :
  0 <= bit -> Z.testbit (assign_bit byte bit v) bit = Z.odd v.
Proof.
  intros H. unfold assign_bit. destruct (Z.odd v).
  - now apply Z.setbit_eq.
  - now apply Z.clearbit_eq.
Qed.

Lemma testbit_assign_bit_other (byte bit v n : Z) :
  0 <= bit -> 0 <= n -> bit <> n ->
  Z.testbit (assign_bit byte bit v) n = Z.testbit byte n.
Proof.
  intros H1 H2 H3. unfold assign_bit. destruct (Z.odd v).
  - now apply Z.setbit_neq.
  - now apply Z.clearbit_neq.
Qed.

Lemma dataReady_write (l : lvalue) (v : Z) (s : machine) :
  dataReady (write l v s) =
  match l with
  | Lflags_Val => Z.testbit v dataReady_bit
  | Lflags_dataReady => Z.odd v
  | _ => dataReady s
  end.
Proof.
  destruct s, l; unfold dataReady; cbn [write flags]; try reflexivity.
  - apply testbit_assign_bit_same. unfold dataReady_bit; lia.
  - apply testbit_assign_bit_other; unfold dataReady_bit, lastSec_bit; lia.
Qed.

Lemma lastSec_write (l : lvalue) (v : Z) (s : machine) :
  lastSec (write l v s) =
  match l with
  | Lflags_Val => Z.testbit v lastSec_bit
  | Lflags_lastSec => Z.odd v
  | _ => lastSec s
  end.
Proof.
  destruct s, l; unfold lastSec; cbn [write flags]; try reflexivity.
  - apply testbit_assign_bit_other; unfold dataReady_bit, lastSec_bit; lia.
  - apply testbit_assign_bit_same. unfold lastSec_bit; lia.
Qed.

Lemma replay_cons (e : effect) (log : list effect) (s : machine) :
  replay (e :: log) s = replay log (exec_effect s e).
Proof. reflexivity. Qed.

Lemma replay_nil (s : machine) : replay [] s = s.
Proof. reflexivity. Qed.

Ltac flag_steps :=
  repeat first [ rewrite replay_cons | rewrite replay_nil ];
  cbn [exec_effect];
  repeat first [ rewrite dataReady_write | rewrite lastSec_write ].

(** ** Order of the stores in the Gate Timer handler *)

Lemma prefix_of_4 {A : Type} (a b c d : A) (pre post : list A) :
  [a; b; c; d] = pre ++ post ->
  pre = [] \/ pre = [a] \/ pre = [a; b] \/ pre = [a; b; c] \/ pre = [a; b; c; d].
Proof.
  intros H.
  destruct pre as [|x1 [|x2 [|x3 [|x4 [|x5 pre]]]]]; simpl in H;
    first [ now left | injection H as; subst; tauto
          | repeat (injection H as _ H); discriminate H ].
Qed.

Lemma prefix_of_1 {A : Type} (a : A) (pre post : list A) :
  [a] = pre ++ post -> pre = [] \/ pre = [a].
Proof.
  intros H. destruct pre as [|x1 [|x2 pre]]; simpl in H;
    first [ now left | injection H as; subst; tauto
          | repeat (injection H as _ H); discriminate H ].
Qed.

Lemma prefix_of_3 {A : Type} (a b c : A) (pre post : list A) :
  [a; b; c] = pre ++ post ->
  pre = [] \/ pre = [a] \/ pre = [a; b] \/ pre = [a; b; c].
Proof.
  intros H.
  destruct pre as [|x1 [|x2 [|x3 [|x4 pre]]]]; simpl in H;
    first [ now left | injection H as; subst; tauto
          | repeat (injection H as _ H); discriminate H ].
Qed.

(** C3: a machine in which [dataReady] is 0 enters the Gate Timer handler.
    At every point inside the handler where [dataReady] has become 1, the
    handler is in its final ([lastSec]) branch and both timers are already
    stopped; the handler ends with [dataReady] raised and the timers
    stopped.  No store of the Timer 1 handler, of the counting branch of the
    Gate Timer handler, of the loop body or of the set-up in [main] raises
    [dataReady]. *)
Theorem dataReady_raised_after_timers_stopped (s : machine) :
  (forall s', dataReady s = false -> inside ISR_TIMER2_OVF_vect s s' ->
     dataReady s' = true -> lastSec s = true /\ timers_stopped s') /\
  (lastSec s = true ->
     dataReady (run ISR_TIMER2_OVF_vect s) = true /\
     timers_stopped (run ISR_TIMER2_OVF_vect s)) /\
  (lastSec s = false ->
     existsb raises_dataReady (log_of ISR_TIMER2_OVF_vect s) = false) /\
  existsb raises_dataReady (log_of ISR_TIMER1_OVF_vect s) = false /\
  existsb raises_dataReady (log_of main_loop_body s) = false /\
  existsb raises_dataReady (log_of main_setup s) = false.
Proof.
  split; [|split; [|split; [|split; [|split]]]].
  - intros s' H0 (pre & post & Hlog & ->) H1.
    destruct (lastSec s) eqn:HL.
    + split; [reflexivity|].
      rewrite (ISR_TIMER2_log_final s HL) in Hlog.
      apply prefix_of_4 in Hlog.
      destruct Hlog as [-> | [-> | [-> | [-> | ->]]]];
        revert H1; flag_steps; try congruence;
        intros _; destruct s; split; reflexivity.
    + exfalso.
      rewrite (ISR_TIMER2_log_counting s HL) in Hlog.
      destruct (wrap 8 (secTimer s - 1) =? 0).
      * apply prefix_of_3 in Hlog.
        destruct Hlog as [-> | [-> | [-> | ->]]];
          revert H1; flag_steps; congruence.
      * apply prefix_of_1 in Hlog.
        destruct Hlog as [-> | ->]; revert H1; flag_steps; congruence.
  - intros HL. unfold run. rewrite (ISR_TIMER2_log_final s HL).
    split; [flag_steps; reflexivity|].
    destruct s; split; reflexivity.
  - intros HL. rewrite (ISR_TIMER2_log_counting s HL).
    destruct (wrap 8 (secTimer s - 1) =? 0); reflexivity.
  - reflexivity.
  - destruct (dataReady s) eqn:E.
    + rewrite (main_loop_log_ready s E). reflexivity.
    + rewrite (main_loop_log_idle s E). reflexivity.
  - reflexivity.
Qed.

(** The last overflow of a gate, taken from the run of the machine: 19711
    ticks after the start the Gate Timer is one tick from its final
    overflow.  Inside the handler, after its third store, [dataReady] is up
    and both timers are stopped; the handler ends in the same way. *)
Lemma dataReady_raised_after_timers_stopped_witness :
  let s := ticks (Z.to_nat 19711) start in
  let s' := replay [Store LTCCR1B 0; Store LTCCR2B 0; Store Lflags_dataReady 1] s in
  dataReady s = false /\ lastSec s = true /\
  inside ISR_TIMER2_OVF_vect s s' /\ dataReady s' = true /\
  timers_stopped s' /\
  dataReady (run ISR_TIMER2_OVF_vect s) = true /\
  timers_stopped (run ISR_TIMER2_OVF_vect s) /\
  existsb raises_dataReady (log_of ISR_TIMER2_OVF_vect start) = false.
Proof.
  intros s s'.
  assert (HD : dataReady s = false) by (vm_compute; reflexivity).
  assert (HL : lastSec s = true) by (vm_compute; reflexivity).
  assert (HI : inside ISR_TIMER2_OVF_vect s s').
  { exists [Store LTCCR1B 0; Store LTCCR2B 0; Store Lflags_dataReady 1],
           [Store Lflags_lastSec 0].
    split; [vm_compute; reflexivity | reflexivity]. }
  assert (HD' : dataReady s' = true) by (vm_compute; reflexivity).
  assert (HS : lastSec start = false) by (vm_compute; reflexivity).
  split; [exact HD|]. split; [exact HL|]. split; [exact HI|].
  split; [exact HD'|].
  split; [exact (proj2 (proj1 (dataReady_raised_after_timers_stopped s) s' HD HI HD'))|].
  split; [exact (proj1 (proj1 (proj2 (dataReady_raised_after_timers_stopped s)) HL))|].
  split; [exact (proj2 (proj1 (proj2 (dataReady_raised_after_timers_stopped s)) HL))|].
  exact (proj1 (proj2 (proj2 (dataReady_raised_after_timers_stopped start))) HS).
Defined.

(** ** The reload at the end of the counted roll-overs *)

Lemma ISR_TIMER2_counting_branch (s : machine) :
  lastSec s = false ->
  secTimer (run ISR_TIMER2_OVF_vect s) = wrap 8 (secTimer s - 1) /\
  TCNT2 (run ISR_TIMER2_OVF_vect s) = TCNT2 s /\
  (wrap 8 (secTimer s - 1) = 0 ->
     lastSec (run ISR_TIMER2_OVF_vect s) = true /\
     TCNT0 (run ISR_TIMER2_OVF_vect s) = LAST_SEC) /\
  (wrap 8 (secTimer s - 1) <> 0 ->
     lastSec (run ISR_TIMER2_OVF_vect s) = false /\
     TCNT0 (run ISR_TIMER2_OVF_vect s) = TCNT0 s).
Proof.
  intros HL. unfold run. rewrite (ISR_TIMER2_log_counting s HL).
  destruct (Z.eqb_spec (wrap 8 (secTimer s - 1)) 0) as [E|E].
  - repeat split; try (destruct s; reflexivity); try congruence.
    flag_steps. reflexivity.
  - repeat split; try (destruct s; reflexivity); try congruence.
    flag_steps. exact HL.
Qed.

(** C1: on the overflow that brings [secTimer] to zero the handler stores
    [LAST_SEC] in TCNT0, the register of Timer 0, and leaves the Gate
    Timer's own register TCNT2 as it is.  Taken 19455 ticks after the start
    of a gate (secTimer 1, TCNT2 255): the next tick is the 76th overflow;
    the handler logs the stores to secTimer, TCNT0 and lastSec only, TCNT2
    reads 0 and not [LAST_SEC] afterwards, and the following overflow comes
    after a full 256 ticks, not after the 256 - LAST_SEC = 74 of the
    fractional remainder. *)
Theorem last_reload_goes_to_TCNT0 :
  let s := ticks (Z.to_nat 19455) start in
  let s' := t2_tick s in
  lastSec s = false /\ secTimer s = 1 /\ TCNT2 s = 255 /\
  log_of ISR_TIMER2_OVF_vect (write LTCNT2 0 s) =
    [Store LsecTimer 0; Store LTCNT0 LAST_SEC; Store Lflags_lastSec 1] /\
  secTimer s' = 0 /\ lastSec s' = true /\
  TCNT0 s' = LAST_SEC /\ TCNT2 s' = 0 /\ TCNT2 s' <> LAST_SEC /\
  ticks_until_ready (Z.to_nat 1000) s' = Some 256 /\
  256 - LAST_SEC = 74.
Proof. vm_compute. repeat split; congruence. Qed.

(** ** The combined count *)

Lemma to_int_16bit (t : Z) :
  0 <= t < 65536 ->
  to_int t = if t <? 32768 then t else t - 65536.
Proof.
  intros H. unfold to_int, to_signed, wrap.
  change (2 ^ 16) with 65536. change (2 ^ (16 - 1)) with 32768.
  rewrite Z.mod_small by lia. reflexivity.
Qed.

Lemma main_frequency_cases (s : machine) :
  0 <= freqCounter s < 256 ->
  0 <= TCNT1 s < 65536 ->
  value_of main_frequency s =
  if TCNT1 s <? 32768 then freqCounter s * 65536 + TCNT1 s
  else (freqCounter s * 65536 + TCNT1 s - 65536) mod 2 ^ 32.
Proof.
  intros Hf Ht. rewrite main_frequency_value, (to_int_16bit _ Ht).
  unfold to_ulong, wrap. change (2 ^ 32) with 4294967296.
  destruct (Z.ltb_spec (TCNT1 s) 32768).
  - rewrite (Z.mod_small (freqCounter s)) by lia.
    rewrite (Z.mod_small (TCNT1 s)) by lia.
    rewrite (Z.mod_small (freqCounter s * 65536)) by lia.
    apply Z.mod_small. lia.
  - rewrite (Z.mod_small (freqCounter s)) by lia.
    rewrite (Z.mod_small (freqCounter s * 65536)) by lia.
    rewrite Zplus_mod_idemp_r. f_equal. lia.
Qed.

(** C8: [getTimer1] hands the 16-bit register back as a signed 16-bit [int].
    With the two counters in their ranges, the frequency [main] computes
    equals freqCounter * 65536 + TCNT1 exactly when TCNT1 is below 2^15.
    From 2^15 on [getTimer1] returns the negative TCNT1 - 65536, whose
    conversion to [unsigned long] is sign-extended, and the computed
    frequency is the true count less 65536, modulo 2^32. *)
Theorem frequency_exact_iff_TCNT1_below_2_15 (s : machine) :
  0 <= freqCounter s < 256 ->
  0 <= TCNT1 s < 65536 ->
  (value_of main_frequency s = pulse_count s <-> TCNT1 s < 2 ^ 15) /\
  (2 ^ 15 <= TCNT1 s ->
     value_of getTimer1 s = TCNT1 s - 65536 /\
     value_of getTimer1 s < 0 /\
     to_ulong (value_of getTimer1 s) = TCNT1 s + (2 ^ 32 - 2 ^ 16) /\
     value_of main_frequency s = (pulse_count s - 65536) mod 2 ^ 32 /\
     value_of main_frequency s <> pulse_count s).
Proof.
  intros Hf Ht. unfold pulse_count.
  rewrite (main_frequency_cases s Hf Ht).
  change (2 ^ 15) with 32768. change (2 ^ 16) with 65536.
  change (2 ^ 32) with 4294967296.
  assert (Hneq : 32768 <= TCNT1 s ->
     (freqCounter s * 65536 + TCNT1 s - 65536) mod 4294967296
       <> freqCounter s * 65536 + TCNT1 s).
  { intros H E.
    destruct (Z.eq_dec (freqCounter s) 0) as [E0|E0].
    - rewrite E0 in E.
      replace (0 * 65536 + TCNT1 s - 65536)
        with (TCNT1 s + 4294901760 + (-1) * 4294967296) in E by lia.
      rewrite Z.mod_add in E by lia.
      rewrite Z.mod_small in E by lia. lia.
    - rewrite Z.mod_small in E by lia. lia. }
  split.
  - destruct (Z.ltb_spec (TCNT1 s) 32768) as [H|H].
    + split; intros; [lia | reflexivity].
    + split; intros H'; [exfalso; exact (Hneq H H') | lia].
  - intros H.
    assert (Hg : value_of getTimer1 s = TCNT1 s - 65536).
    { change (value_of getTimer1 s) with (to_int (TCNT1 s)).
      rewrite (to_int_16bit _ Ht).
      destruct (Z.ltb_spec (TCNT1 s) 32768); lia. }
    rewrite Hg.
    destruct (Z.ltb_spec (TCNT1 s) 32768) as [H'|H']; [lia|].
    split; [reflexivity|]. split; [lia|]. split; [|split].
    + unfold to_ulong, wrap. change (2 ^ 32) with 4294967296.
      replace (TCNT1 s - 65536)
        with (TCNT1 s + 4294901760 + (-1) * 4294967296) by lia.
      rewrite Z.mod_add by lia. apply Z.mod_small. lia.
    + reflexivity.
    + now apply Hneq.
Qed.

(** A gate in which 40000 edges arrive: TCNT1 ends at 40000, above 2^15. *)
Lemma frequency_exact_iff_TCNT1_below_2_15_witness :
  let s := ticks (Z.to_nat 19712) (edges (Z.to_nat 40000) start) in
  (0 <= freqCounter s < 256) /\ (0 <= TCNT1 s < 65536) /\
  (value_of main_frequency s = pulse_count s <-> TCNT1 s < 2 ^ 15) /\
  2 ^ 15 <= TCNT1 s /\
  value_of getTimer1 s = TCNT1 s - 65536 /\
  value_of getTimer1 s < 0 /\
  to_ulong (value_of getTimer1 s) = TCNT1 s + (2 ^ 32 - 2 ^ 16) /\
  value_of main_frequency s = (pulse_count s - 65536) mod 2 ^ 32 /\
  value_of main_frequency s <> pulse_count s.
Proof.
  intros s.
  assert (Hf : 0 <= freqCounter s < 256) by (vm_compute; split; congruence).
  assert (Ht : 0 <= TCNT1 s < 65536) by (vm_compute; split; [congruence|reflexivity]).
  assert (Hh : 2 ^ 15 <= TCNT1 s) by (vm_compute; congruence).
  split; [exact Hf|]. split; [exact Ht|].
  split; [exact (proj1 (frequency_exact_iff_TCNT1_below_2_15 s Hf Ht))|].
  split; [exact Hh|].
  exact (proj2 (frequency_exact_iff_TCNT1_below_2_15 s Hf Ht) Hh).
Defined.

(** C2: a 40 kHz input.  40000 falling edges arrive while the gate is open;
    at gate close dataReady is 1, freqCounter is 0 and the frozen TCNT1 is
    40000, so freqCounter * 65536 + TCNT1 is 40000.  The loop body computes
    4294941760 and sends "-25536" to the display.  With 105536 edges
    (freqCounter 1, TCNT1 40000) it computes and displays 40000. *)
Theorem frequency_wrong_above_2_15 :
  let s := ticks (Z.to_nat 19712) (edges (Z.to_nat 40000) start) in
  let s2 := ticks (Z.to_nat 19712) (edges (Z.to_nat 105536) start) in
  dataReady s = true /\ freqCounter s = 0 /\ TCNT1 s = 40000 /\
  pulse_count s = 40000 /\
  value_of main_frequency s = 4294941760 /\
  lcd_calls (log_of main_loop_body s) =
    [hd44780_clearLine 0; hd44780_putstr "-25536"] /\
  dataReady s2 = true /\ freqCounter s2 = 1 /\ TCNT1 s2 = 40000 /\
  pulse_count s2 = 105536 /\
  value_of main_frequency s2 = 40000 /\
  lcd_calls (log_of main_loop_body s2) =
    [hd44780_clearLine 0; hd44780_putstr "40000"].
Proof. vm_compute. repeat split; reflexivity. Qed.

(** A 1 kHz input: 1000 edges in the gate are displayed as "1000". *)
Example thousand_pulses_report_1000 :
  let s := ticks (Z.to_nat 19712) (edges (Z.to_nat 1000) start) in
  dataReady s = true /\
  lcd_calls (log_of main_loop_body s) =
    [hd44780_clearLine 0; hd44780_putstr "1000"].
Proof. vm_compute. split; reflexivity. Qed.

(** ** A gate without input edges *)

Lemma t2_tick_keeps_pulse_counter (s : machine) :
  freqCounter (t2_tick s) = freqCounter s /\ TCNT1 (t2_tick s) = TCNT1 s.
Proof.
  unfold t2_tick. destruct (TCCR2B s =? 7); [|auto].
  set (s1 := write LTCNT2 (wrap 8 (TCNT2 s + 1)) s).
  assert (H1 : freqCounter s1 = freqCounter s /\ TCNT1 s1 = TCNT1 s)
    by (destruct s; auto).
  destruct (TCNT2 s1 =? 0); [|exact H1].
  destruct H1 as [<- <-]. clearbody s1. clear s.
  unfold timer2_overflow. destruct (Z.testbit (TIMSK2 s1) TOIE2).
  - unfold run. destruct (lastSec s1) eqn:HL.
    + rewrite (ISR_TIMER2_log_final s1 HL). destruct s1; auto.
    + rewrite (ISR_TIMER2_log_counting s1 HL).
      destruct (wrap 8 (secTimer s1 - 1) =? 0); destruct s1; auto.
  - destruct s1; auto.
Qed.

Lemma ticks_keep_pulse_counter (n : nat) (s : machine) :
  freqCounter (ticks n s) = freqCounter s /\ TCNT1 (ticks n s) = TCNT1 s.
Proof.
  induction n as [|n [IH1 IH2]]; [auto|].
  change (ticks (S n) s) with (t2_tick (ticks n s)).
  destruct (t2_tick_keeps_pulse_counter (ticks n s)) as [-> ->].
  auto.
Qed.

Lemma zero_count_reported_as_0 (s : machine) :
  dataReady s = true -> freqCounter s = 0 -> TCNT1 s = 0 ->
  value_of main_frequency s = 0 /\
  lcd_calls (log_of main_loop_body s) =
    [hd44780_clearLine 0; hd44780_putstr "0"].
Proof.
  intros Hd Hf Ht.
  assert (E : value_of main_frequency s = 0)
    by (rewrite main_frequency_value, Hf, Ht; reflexivity).
  split; [exact E|].
  rewrite (main_loop_log_ready s Hd), E. reflexivity.
Qed.

(** C6: no edge arrives on the T1 pin while the gate is open.  However many
    ticks the gate has run, freqCounter and TCNT1 are still zero; once
    [dataReady] is up, the frequency the loop body computes is exactly 0 and
    the display receives the string "0". *)
Theorem no_pulses_report_0 (n : nat) :
  let s := ticks n start in
  freqCounter s = 0 /\ TCNT1 s = 0 /\
  (dataReady s = true ->
   value_of main_frequency s = 0 /\
   ltoa (value_of main_frequency s) = "0"%string /\
   lcd_calls (log_of main_loop_body s) =
     [hd44780_clearLine 0; hd44780_putstr "0"]).
Proof.
  intros s.
  destruct (ticks_keep_pulse_counter n start) as [Hf Ht].
  change (freqCounter start) with 0 in Hf. change (TCNT1 start) with 0 in Ht.
  fold s in Hf, Ht.
  split; [exact Hf|]. split; [exact Ht|].
  intros Hd.
  destruct (zero_count_reported_as_0 s Hd Hf Ht) as [E L].
  rewrite E. auto.
Qed.

Lemma no_pulses_report_0_witness :
  let s := ticks (Z.to_nat 19712) start in
  dataReady s = true /\
  value_of main_frequency s = 0 /\
  ltoa (value_of main_frequency s) = "0"%string /\
  lcd_calls (log_of main_loop_body s) =
    [hd44780_clearLine 0; hd44780_putstr "0"].
Proof.
  intros s.
  assert (Hd : dataReady s = true) by (vm_compute; reflexivity).
  split; [exact Hd|].
  exact (proj2 (proj2 (no_pulses_report_0 (Z.to_nat 19712))) Hd).
Defined.

(** ** What holds in every machine the system reaches *)

Lemma system_inv_start : system_inv start.
Proof. unfold system_inv. vm_compute. intuition congruence. Qed.

Lemma system_inv_t1_edge (s : machine) :
  system_inv s -> system_inv (t1_edge s).
Proof.
  intros H. unfold t1_edge. destruct (TCCR1B s =? 6); [|exact H].
  set (s1 := write LTCNT1 (wrap 16 (TCNT1 s + 1)) s).
  assert (H1 : system_inv s1) by (destruct s; exact H).
  destruct (TCNT1 s1 =? 0); [|exact H1].
  clearbody s1. clear s H.
  unfold timer1_overflow.
  destruct H1 as (Hfl & Hs & Hf1 & Hf2 & Hm1 & Hm2 & Ha1 & Ha2).
  rewrite Hm1. change (Z.testbit 1 TOIE1) with true. cbv iota.
  unfold run. rewrite ISR_TIMER1_log.
  destruct s1; unfold system_inv; cbn in *. auto 10.
Qed.

Lemma system_inv_t2_tick (s : machine) :
  system_inv s -> system_inv (t2_tick s).
Proof.
  intros H. unfold t2_tick. destruct (Z.eqb_spec (TCCR2B s) 7) as [E7|]; [|exact H].
  set (s1 := write LTCNT2 (wrap 8 (TCNT2 s + 1)) s).
  assert (H1 : system_inv s1) by (destruct s; exact H).
  assert (E1 : TCCR2B s1 = 7) by (destruct s; exact E7).
  destruct (TCNT2 s1 =? 0); [|exact H1].
  clearbody s1. clear s H E7.
  unfold timer2_overflow.
  destruct H1 as (Hfl & Hs & Hf1 & Hf2 & Hm1 & Hm2 & Ha1 & Ha2).
  rewrite Hm2. change (Z.testbit 1 TOIE2) with true. cbv iota.
  unfold run.
  destruct Hfl as [F | [F | F]].
  - rewrite (ISR_TIMER2_log_counting s1 (proj1 (lastSec_flags s1) F)).
    destruct (wrap 8 (secTimer s1 - 1) =? 0);
      destruct s1; unfold system_inv; cbn in *; subst;
      repeat split; auto; try (intros; discriminate).
  - specialize (Hs F). congruence.
  - rewrite (ISR_TIMER2_log_final s1 (proj2 (proj2 (lastSec_flags s1)) F)).
    destruct s1; unfold system_inv; cbn in *; subst;
      repeat split; auto.
Qed.

Lemma system_inv_main_loop (s : machine) :
  system_inv s -> system_inv (run main_loop_body s).
Proof.
  intros H. unfold run.
  destruct (dataReady s) eqn:Hd.
  - rewrite (main_loop_log_ready s Hd).
    destruct H as (Hfl & Hs & Hf1 & Hf2 & Hm1 & Hm2 & Ha1 & Ha2).
    assert (F : flags s = 1).
    { destruct Hfl as [F | [F | F]]; [| exact F |].
      - rewrite (proj1 (dataReady_flags s) F) in Hd. discriminate.
      - rewrite (proj2 (proj2 (dataReady_flags s)) F) in Hd. discriminate. }
    destruct s; unfold system_inv; cbn in *; subst.
    repeat split; auto; intros; discriminate.
  - rewrite (main_loop_log_idle s Hd). exact H.
Qed.

Lemma reachable_system_inv (s : machine) : reachable s -> system_inv s.
Proof.
  induction 1 as [|e s _ IH].
  - exact system_inv_start.
  - destruct e; cbn [step].
    + now apply system_inv_t1_edge.
    + now apply system_inv_t2_tick.
    + now apply system_inv_main_loop.
Qed.

Lemma reachable_ticks (n : nat) (s : machine) :
  reachable s -> reachable (ticks n s).
Proof.
  intros H. induction n as [|n IH]; [exact H|].
  change (ticks (S n) s) with (step T2_tick (ticks n s)). now constructor.
Qed.

Lemma reachable_edges (n : nat) (s : machine) :
  reachable s -> reachable (edges n s).
Proof.
  intros H. induction n as [|n IH]; [exact H|].
  change (edges (S n) s) with (step T1_edge (edges n s)). now constructor.
Qed.

(** ** The two flags *)

Lemma ISR_TIMER2_flags (s : machine) :
  (lastSec s = true ->
     dataReady (run ISR_TIMER2_OVF_vect s) = true /\
     lastSec (run ISR_TIMER2_OVF_vect s) = false) /\
  (lastSec s = false ->
     dataReady (run ISR_TIMER2_OVF_vect s) = dataReady s).
Proof.
  split; intros HL; unfold run.
  - rewrite (ISR_TIMER2_log_final s HL). split; flag_steps; reflexivity.
  - rewrite (ISR_TIMER2_log_counting s HL).
    destruct (wrap 8 (secTimer s - 1) =? 0); flag_steps; reflexivity.
Qed.

Lemma system_inv_flags_exclusive (s : machine) :
  system_inv s -> dataReady s && lastSec s = false.
Proof.
  intros (Hfl & _). unfold dataReady, lastSec.
  destruct Hfl as [-> | [-> | ->]]; reflexivity.
Qed.

(** C9: in every machine the system reaches, and so after every execution of
    the Gate Timer handler in a run of the program (the machine after a tick
    of a reachable machine), [dataReady] and [lastSec] are not both 1.  The
    handler's final branch raises [dataReady] and clears [lastSec] in the
    same invocation; its counting branch, the only one that can raise
    [lastSec], leaves [dataReady] as it found it. *)
Theorem dataReady_lastSec_never_both (s : machine) :
  (reachable s ->
     dataReady s && lastSec s = false /\
     dataReady (t2_tick s) && lastSec (t2_tick s) = false) /\
  (lastSec s = true ->
     dataReady (run ISR_TIMER2_OVF_vect s) = true /\
     lastSec (run ISR_TIMER2_OVF_vect s) = false) /\
  (lastSec s = false ->
     dataReady (run ISR_TIMER2_OVF_vect s) = dataReady s).
Proof.
  split; [|exact (ISR_TIMER2_flags s)].
  intros H. split.
  - apply system_inv_flags_exclusive. now apply reachable_system_inv.
  - apply system_inv_flags_exclusive, reachable_system_inv.
    exact (reach_step T2_tick s H).
Qed.

(** The machine one tick before the gate closes and the tick that closes
    it; the first overflow of the gate for the counting branch. *)
Lemma dataReady_lastSec_never_both_witness :
  let s := ticks (Z.to_nat 19711) start in
  let c := ticks (Z.to_nat 255) start in
  (dataReady s && lastSec s = false /\
   dataReady (t2_tick s) && lastSec (t2_tick s) = false) /\
  lastSec s = true /\
  (dataReady (run ISR_TIMER2_OVF_vect s) = true /\
   lastSec (run ISR_TIMER2_OVF_vect s) = false) /\
  lastSec c = false /\
  dataReady (run ISR_TIMER2_OVF_vect c) = dataReady c.
Proof.
  intros s c.
  assert (Hs : lastSec s = true) by (vm_compute; reflexivity).
  assert (Hc : lastSec c = false) by (vm_compute; reflexivity).
  split.
  { exact (proj1 (dataReady_lastSec_never_both s)
             (reachable_ticks (Z.to_nat 19711) start reach_start)). }
  split; [exact Hs|].
  split; [exact (proj1 (proj2 (dataReady_lastSec_never_both s)) Hs)|].
  split; [exact Hc|].
  exact (proj2 (proj2 (dataReady_lastSec_never_both c)) Hc).
Defined.

(** ** TCNT0 plays no part *)

Lemma log_ignores_TCNT0 (s : machine) :
  log_of ISR_TIMER1_OVF_vect (forget_TCNT0 s) = log_of ISR_TIMER1_OVF_vect s /\
  log_of ISR_TIMER2_OVF_vect (forget_TCNT0 s) = log_of ISR_TIMER2_OVF_vect s /\
  log_of main_loop_body (forget_TCNT0 s) = log_of main_loop_body s.
Proof.
  split; [destruct s; reflexivity|]. split.
  - destruct (lastSec s) eqn:HL.
    + rewrite (ISR_TIMER2_log_final s HL). apply ISR_TIMER2_log_final.
      unfold forget_TCNT0. now rewrite lastSec_write.
    + rewrite (ISR_TIMER2_log_counting s HL).
      rewrite ISR_TIMER2_log_counting
        by (unfold forget_TCNT0; now rewrite lastSec_write).
      destruct s; reflexivity.
  - destruct (dataReady s) eqn:HD.
    + rewrite (main_loop_log_ready s HD).
      rewrite main_loop_log_ready
        by (unfold forget_TCNT0; now rewrite dataReady_write).
      destruct s; reflexivity.
    + rewrite (main_loop_log_idle s HD). apply main_loop_log_idle.
      unfold forget_TCNT0. now rewrite dataReady_write.
Qed.

Lemma exec_effect_ignores_TCNT0 (e : effect) (s : machine) :
  forget_TCNT0 (exec_effect (forget_TCNT0 s) e) = forget_TCNT0 (exec_effect s e).
Proof. destruct s, e as [[] v | | |]; reflexivity. Qed.

Lemma replay_ignores_TCNT0 (log : list effect) (s : machine) :
  forget_TCNT0 (replay log (forget_TCNT0 s)) = forget_TCNT0 (replay log s).
Proof.
  revert s. induction log as [|e log IH]; intros s.
  - destruct s; reflexivity.
  - rewrite !replay_cons.
    rewrite <- (IH (exec_effect (forget_TCNT0 s) e)), exec_effect_ignores_TCNT0.
    apply IH.
Qed.

Lemma forget_TCNT0_fields (s : machine) :
  TCCR1B (forget_TCNT0 s) = TCCR1B s /\ TCNT1 (forget_TCNT0 s) = TCNT1 s /\
  TIMSK1 (forget_TCNT0 s) = TIMSK1 s /\
  TCCR2B (forget_TCNT0 s) = TCCR2B s /\ TCNT2 (forget_TCNT0 s) = TCNT2 s /\
  TIMSK2 (forget_TCNT0 s) = TIMSK2 s.
Proof. destruct s; repeat split. Qed.

Lemma forget_TCNT0_idem (s : machine) :
  forget_TCNT0 (forget_TCNT0 s) = forget_TCNT0 s.
Proof. destruct s; reflexivity. Qed.

Lemma timer1_overflow_ignores_TCNT0 (s : machine) :
  forget_TCNT0 (timer1_overflow (forget_TCNT0 s)) =
  forget_TCNT0 (timer1_overflow s).
Proof.
  unfold timer1_overflow.
  destruct (forget_TCNT0_fields s) as (_ & _ & -> & _).
  destruct (Z.testbit _ TOIE1).
  - unfold run. rewrite (proj1 (log_ignores_TCNT0 s)).
    apply replay_ignores_TCNT0.
  - destruct s; reflexivity.
Qed.

Lemma timer2_overflow_ignores_TCNT0 (s : machine) :
  forget_TCNT0 (timer2_overflow (forget_TCNT0 s)) =
  forget_TCNT0 (timer2_overflow s).
Proof.
  unfold timer2_overflow.
  destruct (forget_TCNT0_fields s) as (_ & _ & _ & _ & _ & ->).
  destruct (Z.testbit _ TOIE2).
  - unfold run. rewrite (proj1 (proj2 (log_ignores_TCNT0 s))).
    apply replay_ignores_TCNT0.
  - destruct s; reflexivity.
Qed.

Lemma step_ignores_TCNT0 (e : event) (s : machine) :
  forget_TCNT0 (step e (forget_TCNT0 s)) = forget_TCNT0 (step e s).
Proof.
  destruct e; cbn [step].
  - unfold t1_edge.
    set (v := wrap 16 (TCNT1 s + 1)).
    assert (V : wrap 16 (TCNT1 (forget_TCNT0 s) + 1) = v) by (destruct s; reflexivity).
    assert (E : write LTCNT1 v (forget_TCNT0 s) = forget_TCNT0 (write LTCNT1 v s))
      by (destruct s; reflexivity).
    rewrite V, E. clearbody v.
    destruct (forget_TCNT0_fields s) as (-> & _).
    destruct (TCCR1B s =? 6); [|apply forget_TCNT0_idem].
    destruct (forget_TCNT0_fields (write LTCNT1 v s)) as (_ & -> & _).
    destruct (TCNT1 (write LTCNT1 v s) =? 0); [|apply forget_TCNT0_idem].
    apply timer1_overflow_ignores_TCNT0.
  - unfold t2_tick.
    set (v := wrap 8 (TCNT2 s + 1)).
    assert (V : wrap 8 (TCNT2 (forget_TCNT0 s) + 1) = v) by (destruct s; reflexivity).
    assert (E : write LTCNT2 v (forget_TCNT0 s) = forget_TCNT0 (write LTCNT2 v s))
      by (destruct s; reflexivity).
    rewrite V, E. clearbody v.
    destruct (forget_TCNT0_fields s) as (_ & _ & _ & -> & _).
    destruct (TCCR2B s =? 7); [|apply forget_TCNT0_idem].
    destruct (forget_TCNT0_fields (write LTCNT2 v s)) as (_ & _ & _ & _ & -> & _).
    destruct (TCNT2 (write LTCNT2 v s) =? 0); [|apply forget_TCNT0_idem].
    apply timer2_overflow_ignores_TCNT0.
  - unfold run. rewrite (proj2 (proj2 (log_ignores_TCNT0 s))).
    apply replay_ignores_TCNT0.
Qed.

Lemma steps_ignore_TCNT0 (es : list event) (a b : machine) :
  forget_TCNT0 a = forget_TCNT0 b ->
  forget_TCNT0 (steps es a) = forget_TCNT0 (steps es b).
Proof.
  revert a b. induction es as [|e es IH]; intros a b H; [exact H|].
  cbn [steps fold_left]. apply IH.
  rewrite <- (step_ignores_TCNT0 e a), <- (step_ignores_TCNT0 e b), H.
  reflexivity.
Qed.

(** ** Restart of the cycle *)

(** C5: the pass of the loop body that finds [dataReady] set clears it,
    zeroes freqCounter and the Timer 1 register, zeroes the Timer 2
    register, reloads secTimer with [ONE_SEC_GATE] and turns both timers on
    again.  When the machine is one the system reaches, the machine after
    the pass is the machine at the start of the first gate in every variable
    and register, TCNT0 apart; TCNT0 is never read, so whatever edges, ticks
    and loop passes follow, the next cycle runs as the first cycle does from
    its start and the loop body logs the same stores and display calls. *)
Theorem restart_resets_cycle (s : machine) :
  dataReady s = true ->
  let s' := run main_loop_body s in
  dataReady s' = false /\
  freqCounter s' = 0 /\ TCNT1 s' = 0 /\
  TCNT2 s' = 0 /\ secTimer s' = ONE_SEC_GATE /\
  TCCR1B s' = 6 /\ TCCR2B s' = 7 /\
  (reachable s ->
     lastSec s' = false /\ s' = write LTCNT0 (TCNT0 s) start /\
     forall es,
       forget_TCNT0 (steps es s') = forget_TCNT0 (steps es start) /\
       log_of main_loop_body (steps es s') =
       log_of main_loop_body (steps es start)).
Proof.
  intros Hd s'. subst s'. unfold run. rewrite (main_loop_log_ready s Hd).
  split; [flag_steps; reflexivity|].
  do 6 (split; [destruct s; reflexivity|]).
  intros Hr. apply reachable_system_inv in Hr.
  destruct Hr as (Hfl & Hs & Hf1 & Hf2 & Hm1 & Hm2 & Ha1 & Ha2).
  assert (F : flags s = 1).
  { destruct Hfl as [F | [F | F]]; [| exact F |].
    - rewrite (proj1 (dataReady_flags s) F) in Hd. discriminate.
    - rewrite (proj2 (proj2 (dataReady_flags s)) F) in Hd. discriminate. }
  match goal with |- lastSec ?x = _ /\ _ => set (s' := x) end.
  assert (E : s' = write LTCNT0 (TCNT0 s) start)
    by (subst s'; destruct s; cbn in *; subst; reflexivity).
  split; [rewrite E, lastSec_write; reflexivity|].
  split; [exact E|].
  intros es.
  assert (G : forget_TCNT0 (steps es s') = forget_TCNT0 (steps es start)).
  { apply steps_ignore_TCNT0. rewrite E. reflexivity. }
  split; [exact G|].
  rewrite <- (proj2 (proj2 (log_ignores_TCNT0 (steps es s')))), G.
  apply log_ignores_TCNT0.
Qed.

(** The second gate starts as the first did: a gate with 70000 input edges
    is run to its close, the loop body restarts the cycle. *)
Lemma restart_resets_cycle_witness :
  let s := ticks (Z.to_nat 19712) (edges (Z.to_nat 70000) start) in
  let s' := run main_loop_body s in
  dataReady s = true /\ freqCounter s = 1 /\ TCNT1 s = 4464 /\
  dataReady s' = false /\
  freqCounter s' = 0 /\ TCNT1 s' = 0 /\
  TCNT2 s' = 0 /\ secTimer s' = ONE_SEC_GATE /\
  TCCR1B s' = 6 /\ TCCR2B s' = 7 /\
  lastSec s' = false /\ s' = write LTCNT0 (TCNT0 s) start /\
  forall es,
    forget_TCNT0 (steps es s') = forget_TCNT0 (steps es start) /\
    log_of main_loop_body (steps es s') =
    log_of main_loop_body (steps es start).
Proof.
  intros s s'.
  assert (Hd : dataReady s = true) by (vm_compute; reflexivity).
  assert (Hr : reachable s).
  { apply reachable_ticks, reachable_edges, reach_start. }
  split; [exact Hd|].
  split; [vm_compute; reflexivity|].
  split; [vm_compute; reflexivity|].
  subst s'.
  destruct (restart_resets_cycle s Hd) as (H1 & H2 & H3 & H4 & H5 & H6 & H7 & H8).
  exact (conj H1 (conj H2 (conj H3 (conj H4 (conj H5 (conj H6 (conj H7 (H8 Hr)))))))).
Defined.

(** ** The software overflow tally *)

Lemma ISR_TIMER1_effect (s : machine) :
  freqCounter (run ISR_TIMER1_OVF_vect s) = (freqCounter s + 1) mod 256 /\
  TCNT1 (run ISR_TIMER1_OVF_vect s) = TCNT1 s /\
  TCCR1B (run ISR_TIMER1_OVF_vect s) = TCCR1B s /\
  TIMSK1 (run ISR_TIMER1_OVF_vect s) = TIMSK1 s.
Proof. destruct s; repeat split. Qed.

Lemma overflows1_tally (k : nat) (s : machine) :
  0 <= freqCounter s < 256 ->
  freqCounter (overflows1 k s) = (freqCounter s + Z.of_nat k) mod 256.
Proof.
  intros H. induction k as [|k IH].
  - cbn [overflows1 Nat.iter]. rewrite Z.add_0_r, Z.mod_small by lia. reflexivity.
  - change (overflows1 (S k) s)
      with (run ISR_TIMER1_OVF_vect (overflows1 k s)).
    rewrite (proj1 (ISR_TIMER1_effect _)), IH.
    rewrite Zplus_mod_idemp_l. f_equal. lia.
Qed.

Lemma t1_edge_counts (s : machine) :
  counting s ->
  counting (t1_edge s) /\
  pulse_count (t1_edge s) = (pulse_count s + 1) mod 2 ^ 24.
Proof.
  intros (Hb & Hm & Hf & Ht). unfold t1_edge. rewrite Hb. cbn [Z.eqb Pos.eqb].
  set (s1 := write LTCNT1 (wrap 16 (TCNT1 s + 1)) s).
  assert (E1 : TCNT1 s1 = (TCNT1 s + 1) mod 65536) by (destruct s; reflexivity).
  assert (E2 : freqCounter s1 = freqCounter s) by (destruct s; reflexivity).
  assert (E3 : TCCR1B s1 = 6) by (destruct s; exact Hb).
  assert (E4 : TIMSK1 s1 = 1) by (destruct s; exact Hm).
  clearbody s1. change (2 ^ 24) with 16777216. unfold pulse_count.
  destruct (Z.eqb_spec (TCNT1 s1) 0) as [Z0|NZ].
  - unfold timer1_overflow. rewrite E4. change (Z.testbit 1 TOIE1) with true.
    cbv iota. unfold counting.
    destruct (ISR_TIMER1_effect s1) as (-> & -> & -> & ->).
    rewrite E2, E3, E4, Z0. rewrite Z0 in E1.
    assert (Hw : TCNT1 s = 65535).
    { destruct (Z.eq_dec (TCNT1 s) 65535) as [|N]; [assumption|].
      rewrite Z.mod_small in E1 by lia. lia. }
    rewrite Hw.
    destruct (Z.eq_dec (freqCounter s) 255) as [E|N].
    + rewrite E. repeat split; try assumption; try reflexivity; try lia.
    + rewrite (Z.mod_small (freqCounter s + 1)) by lia.
      rewrite Z.mod_small by lia.
      repeat split; try assumption; lia.
  - unfold counting. rewrite E1, E2, E3, E4 in *.
    assert (Hw : TCNT1 s <> 65535).
    { intros E. apply NZ. rewrite E. reflexivity. }
    rewrite (Z.mod_small (TCNT1 s + 1)) by lia.
    rewrite Z.mod_small by lia.
    repeat split; try assumption; try reflexivity; lia.
Qed.

Lemma edges_pulse_count (n : nat) (s : machine) :
  counting s ->
  counting (edges n s) /\
  pulse_count (edges n s) = (pulse_count s + Z.of_nat n) mod 2 ^ 24.
Proof.
  intros H. induction n as [|n [IHc IHp]].
  - split; [exact H|]. cbn [edges Nat.iter]. rewrite Z.add_0_r.
    destruct H as (_ & _ & Hf & Ht). unfold pulse_count.
    change (2 ^ 24) with 16777216. rewrite Z.mod_small by lia. reflexivity.
  - change (edges (S n) s) with (t1_edge (edges n s)).
    destruct (t1_edge_counts _ IHc) as [Hc Hp].
    split; [exact Hc|]. rewrite Hp, IHp.
    rewrite Zplus_mod_idemp_l. f_equal. lia.
Qed.

Lemma counting_start : counting start.
Proof. unfold counting. vm_compute. intuition congruence. Qed.

Lemma edges_full_wrap (n : nat) :
  Z.of_nat n = 2 ^ 24 ->
  freqCounter (edges n start) = 0 /\ TCNT1 (edges n start) = 0 /\
  pulse_count (edges n start) <> Z.of_nat n.
Proof.
  intros Hn.
  destruct (edges_pulse_count n start counting_start)
    as [(_ & _ & Hf & Ht) Hp].
  rewrite Hn in *. change (pulse_count start) with 0 in Hp.
  change ((0 + 2 ^ 24) mod 2 ^ 24) with 0 in Hp.
  rewrite Hp. unfold pulse_count in Hp.
  split; [lia|]. split; [lia|]. discriminate.
Qed.

(** C7 as stated fails: the tally is the 8-bit [freqCounter].  The 256
    overflows of 65536 edges bring it, and the whole combined count, back to
    0, and 256 is far below 2^16 - 1; the count of 2^24 = 16777216 edges is
    held as 0. *)
Lemma tally_wraps_at_256_overflows :
  256 < 2 ^ 16 - 1 /\
  freqCounter (overflows1 255 start) = 255 /\
  freqCounter (overflows1 256 start) = 0 /\
  freqCounter (edges (Z.to_nat (2 ^ 24)) start) = 0 /\
  TCNT1 (edges (Z.to_nat (2 ^ 24)) start) = 0 /\
  pulse_count (edges (Z.to_nat (2 ^ 24)) start) <> Z.of_nat (Z.to_nat (2 ^ 24)).
Proof.
  split; [reflexivity|].
  split; [vm_compute; reflexivity|].
  split; [vm_compute; reflexivity|].
  apply edges_full_wrap. apply Z2Nat.id. discriminate.
Qed.

(** C7, amended: the software tally is the 8-bit [freqCounter].  After [k]
    overflows of the 2^16-tick register it holds k mod 256: it is back at 0
    at the 256th overflow and not before.  After [n] input edges in an open
    gate the pair of counters holds n mod 2^24: freqCounter * 65536 + TCNT1
    is the count itself for every count below 2^24, and counts from 2^24 on
    wrap. *)
Theorem tally_is_8_bit (n : nat) :
  freqCounter (overflows1 n start) = Z.of_nat n mod 256 /\
  (0 <= freqCounter (edges n start) < 256 /\
   0 <= TCNT1 (edges n start) < 65536) /\
  pulse_count (edges n start) = Z.of_nat n mod 2 ^ 24 /\
  (Z.of_nat n < 2 ^ 24 -> pulse_count (edges n start) = Z.of_nat n) /\
  (0 < Z.of_nat n < 256 -> freqCounter (overflows1 n start) <> 0).
Proof.
  assert (H1 : freqCounter (overflows1 n start) = Z.of_nat n mod 256).
  { rewrite overflows1_tally by (vm_compute; split; congruence).
    reflexivity. }
  destruct (edges_pulse_count n start counting_start)
    as [(_ & _ & Hf & Ht) Hp].
  change (pulse_count start) with 0 in Hp. rewrite Z.add_0_l in Hp.
  split; [exact H1|]. split; [now split|]. split; [exact Hp|]. split.
  - intros H. rewrite Hp. apply Z.mod_small. lia.
  - intros H. rewrite H1, Z.mod_small by lia. lia.
Qed.

Lemma tally_is_8_bit_witness :
  pulse_count (edges (Z.to_nat 70000) start) = 70000 /\
  freqCounter (overflows1 200 start) <> 0.
Proof.
  split.
  - assert (H : Z.of_nat (Z.to_nat 70000) < 2 ^ 24) by (vm_compute; reflexivity).
    exact (proj1 (proj2 (proj2 (proj2 (tally_is_8_bit (Z.to_nat 70000))))) H).
  - assert (H : 0 < Z.of_nat 200 < 256) by (vm_compute; split; reflexivity).
    exact (proj2 (proj2 (proj2 (proj2 (tally_is_8_bit 200)))) H).
Defined.

(** ** Length of the gate *)

(** C4: the gate the program runs.  From the start of the first gate
    [dataReady] is raised after 19712 prescaler ticks, and after the loop
    body has restarted the cycle the second gate takes 19712 ticks again:
    the handler closes the gate on its 77th overflow and, the reload having
    gone to TCNT0, every one of the [ONE_SEC_GATE] + 1 roll-overs is a full
    256 ticks.  One second is [F_CPU] = 20000000 processor cycles, 19531.25
    ticks of [PRESCALE] = 1024 cycles; the gate is 185088 cycles, that is
    180.75 ticks, longer, not within one tick. *)
Theorem gate_runs_77_full_rollovers :
  let second := run main_loop_body (ticks (Z.to_nat 19712) start) in
  ticks_until_ready (Z.to_nat 30000) start = Some 19712 /\
  dataReady (ticks (Z.to_nat 19712) start) = true /\
  ticks_until_ready (Z.to_nat 30000) second = Some 19712 /\
  dataReady (overflows2 76 start) = false /\
  dataReady (overflows2 77 start) = true /\
  19712 = (ONE_SEC_GATE + 1) * 256 /\
  19712 * PRESCALE - F_CPU = 185088 /\
  gate_error_cycles 19712 = 180 * PRESCALE + 768 /\
  ~ gate_error_cycles 19712 <= PRESCALE.
Proof.
  vm_compute. repeat split; try reflexivity.
  intros H. apply H. reflexivity.
Qed.

(** * Further properties of the program *)

(** ** One event on an open gate *)

Lemma t1_edge_keeps_gate (s : machine) :
  flags (t1_edge s) = flags s /\ secTimer (t1_edge s) = secTimer s /\
  TCCR1B (t1_edge s) = TCCR1B s /\ TIMSK1 (t1_edge s) = TIMSK1 s /\
  TCCR2B (t1_edge s) = TCCR2B s /\ TCNT2 (t1_edge s) = TCNT2 s /\
  TIMSK2 (t1_edge s) = TIMSK2 s.
Proof.
  unfold t1_edge. destruct (TCCR1B s =? 6); [|repeat split].
  set (s1 := write LTCNT1 (wrap 16 (TCNT1 s + 1)) s).
  assert (H1 : flags s1 = flags s /\ secTimer s1 = secTimer s /\
    TCCR1B s1 = TCCR1B s /\ TIMSK1 s1 = TIMSK1 s /\
    TCCR2B s1 = TCCR2B s /\ TCNT2 s1 = TCNT2 s /\ TIMSK2 s1 = TIMSK2 s)
    by (destruct s; repeat split).
  destruct (TCNT1 s1 =? 0); [|exact H1].
  destruct H1 as (<- & <- & <- & <- & <- & <- & <-). clearbody s1.
  unfold timer1_overflow. destruct (Z.testbit (TIMSK1 s1) TOIE1).
  - unfold run. rewrite ISR_TIMER1_log. destruct s1; repeat split.
  - destruct s1; repeat split.
Qed.

Lemma t1_edge_keeps_open (s : machine) :
  gate_open s -> gate_open (t1_edge s) /\ remaining (t1_edge s) = remaining s.
Proof.
  intros H.
  destruct (t1_edge_keeps_gate s) as (Ef & Es & _ & _ & Eb & Ec & Em).
  unfold gate_open, remaining, rollovers_left, dataReady, lastSec in *.
  rewrite Ef, Es, Eb, Ec, Em. auto.
Qed.

Lemma main_loop_keeps_open (s : machine) :
  gate_open s -> run main_loop_body s = s.
Proof.
  intros (Hd & _). unfold run. rewrite (main_loop_log_idle s Hd). reflexivity.
Qed.

(** A tick on an open gate: either the gate stays open and is one tick
    nearer to its close, or this was its last tick and the handler closes
    it.  Timer 1 and its two counters are left alone until the close, and
    the counters also then. *)
Lemma t2_tick_on_open_gate (s : machine) :
  gate_open s ->
  freqCounter (t2_tick s) = freqCounter s /\ TCNT1 (t2_tick s) = TCNT1 s /\
  TIMSK1 (t2_tick s) = TIMSK1 s /\
  (1 < remaining s ->
     gate_open (t2_tick s) /\ remaining (t2_tick s) = remaining s - 1 /\
     TCCR1B (t2_tick s) = TCCR1B s) /\
  (remaining s = 1 ->
     dataReady (t2_tick s) = true /\ lastSec (t2_tick s) = false /\
     timers_stopped (t2_tick s)).
Proof.
  intros (Hd & Hb & Hm & Hc & Hs).
  unfold t2_tick. rewrite Hb. cbn [Z.eqb Pos.eqb].
  set (s1 := write LTCNT2 (wrap 8 (TCNT2 s + 1)) s).
  assert (E1 : TCNT2 s1 = (TCNT2 s + 1) mod 256) by (destruct s; reflexivity).
  assert (F1 : flags s1 = flags s /\ secTimer s1 = secTimer s /\
    TCCR2B s1 = 7 /\ TIMSK2 s1 = TIMSK2 s /\ TCCR1B s1 = TCCR1B s /\
    freqCounter s1 = freqCounter s /\ TCNT1 s1 = TCNT1 s /\
    TIMSK1 s1 = TIMSK1 s)
    by (destruct s; cbn in *; repeat split; assumption).
  destruct F1 as (Ff & Fs & Fb & Fm & Fb1 & Ffc & Ft & Fm1).
  assert (Hd1 : dataReady s1 = false) by (unfold dataReady in *; now rewrite Ff).
  assert (HL1 : lastSec s1 = lastSec s) by (unfold lastSec; now rewrite Ff).
  assert (HR : rollovers_left s1 = rollovers_left s)
    by (unfold rollovers_left; now rewrite HL1, Fs).
  assert (HRb : 0 <= rollovers_left s <= 256).
  { unfold rollovers_left. destruct (lastSec s); [lia|].
    destruct (Z.eqb_spec (secTimer s) 0); lia. }
  destruct (Z.eq_dec (TCNT2 s) 255) as [C|C].
  - (* the register wraps: the handler runs *)
    assert (Z1 : TCNT2 s1 = 0) by (rewrite E1, C; reflexivity).
    rewrite Z1. cbn [Z.eqb].
    unfold timer2_overflow. rewrite Fm, Hm.
    rewrite <- Ffc, <- Ft, <- Fm1, <- Fb1.
    assert (Rs : remaining s = rollovers_left s1 * 256 + 1)
      by (unfold remaining; rewrite HR, C; lia).
    rewrite <- Fm in Hm. rewrite <- Fs in Hs. rewrite !Rs.
    clearbody s1. clear Rs HRb. clear s Hd Hb Hc E1 Ff Fs Fm Fb1 Ffc Ft Fm1 HL1 HR C.
    unfold run.
    destruct (lastSec s1) eqn:HL.
    + rewrite (ISR_TIMER2_log_final s1 HL).
      assert (R0 : rollovers_left s1 = 0) by (unfold rollovers_left; now rewrite HL).
      split; [destruct s1; reflexivity|].
      split; [destruct s1; reflexivity|].
      split; [destruct s1; reflexivity|].
      split; [intros; lia|]. intros _.
      split; [flag_steps; reflexivity|].
      split; [flag_steps; reflexivity|].
      destruct s1; split; reflexivity.
    + rewrite (ISR_TIMER2_log_counting s1 HL).
      assert (R1 : rollovers_left s1 =
                   if secTimer s1 =? 0 then 256 else secTimer s1)
        by (unfold rollovers_left; now rewrite HL).
      assert (W : wrap 8 (secTimer s1 - 1) =
                  if secTimer s1 =? 0 then 255 else secTimer s1 - 1).
      { unfold wrap. change (2 ^ 8) with 256.
        destruct (Z.eqb_spec (secTimer s1) 0) as [E|E].
        - rewrite E. reflexivity.
        - apply Z.mod_small. lia. }
      rewrite R1.
      match goal with |- context [replay ?l s1] => set (s2 := replay l s1) end.
      assert (A1 : freqCounter s2 = freqCounter s1 /\ TCNT1 s2 = TCNT1 s1 /\
        TIMSK1 s2 = TIMSK1 s1 /\ TCCR1B s2 = TCCR1B s1 /\ TCCR2B s2 = 7 /\
        TIMSK2 s2 = TIMSK2 s1 /\ TCNT2 s2 = 0 /\
        secTimer s2 = wrap 8 (secTimer s1 - 1)).
      { subst s2. destruct (wrap 8 (secTimer s1 - 1) =? 0);
          destruct s1; cbn in *; repeat split; assumption. }
      assert (A2 : dataReady s2 = false).
      { subst s2. destruct (wrap 8 (secTimer s1 - 1) =? 0);
          flag_steps; exact Hd1. }
      assert (A3 : lastSec s2 = (wrap 8 (secTimer s1 - 1) =? 0)).
      { subst s2. destruct (wrap 8 (secTimer s1 - 1) =? 0);
          flag_steps; [reflexivity | exact HL]. }
      clearbody s2.
      destruct A1 as (-> & -> & -> & -> & B2 & M2 & C2 & S2).
      split; [reflexivity|]. split; [reflexivity|]. split; [reflexivity|].
      assert (Wb : 0 <= wrap 8 (secTimer s1 - 1) < 256)
        by (apply Z.mod_pos_bound; reflexivity).
      split.
      * intros _. split; [|split; [|reflexivity]].
        -- unfold gate_open. rewrite A2, B2, M2, C2, S2.
           repeat split; try assumption; lia.
        -- unfold remaining, rollovers_left. rewrite A3, C2, S2.
           destruct (Z.eqb_spec (wrap 8 (secTimer s1 - 1)) 0) as [E0|E0];
             rewrite W in *; destruct (Z.eqb_spec (secTimer s1) 0); lia.
      * intros R. exfalso. destruct (Z.eqb_spec (secTimer s1) 0); lia.
  - (* no overflow *)
    assert (N1 : TCNT2 s1 = TCNT2 s + 1) by (rewrite E1; apply Z.mod_small; lia).
    destruct (Z.eqb_spec (TCNT2 s1) 0) as [Z0|_]; [lia|].
    split; [exact Ffc|]. split; [exact Ft|]. split; [exact Fm1|].
    split.
    + intros _. split; [|split; [|exact Fb1]].
      * unfold gate_open. rewrite Fb, Fm, Fs, N1.
        repeat split; try assumption; lia.
      * unfold remaining. rewrite HR, N1. lia.
    + intros R. exfalso. unfold remaining in R. lia.
Qed.

(** ** Runs of events on an open gate *)

Lemma steps_app (es1 es2 : list event) (s : machine) :
  steps (es1 ++ es2) s = steps es2 (steps es1 s).
Proof. unfold steps. apply fold_left_app. Qed.

Lemma count_ticks_nonneg (es : list event) : 0 <= count_ticks es.
Proof. induction es as [|[] es IH]; cbn [count_ticks]; lia. Qed.

Lemma count_edges_nonneg (es : list event) : 0 <= count_edges es.
Proof. induction es as [|[] es IH]; cbn [count_edges]; lia. Qed.

Lemma steps_on_open_gate (es : list event) (s : machine) :
  gate_open s -> count_ticks es < remaining s ->
  gate_open (steps es s) /\
  remaining (steps es s) = remaining s - count_ticks es.
Proof.
  revert s. induction es as [|e es IH]; intros s Ho Hc.
  - cbn. split; [exact Ho | lia].
  - pose proof (count_ticks_nonneg es) as Hn.
    change (steps (e :: es) s) with (steps es (step e s)).
    destruct e; cbn [count_ticks step] in *.
    + destruct (t1_edge_keeps_open s Ho) as [Ho' Hr'].
      destruct (IH (t1_edge s) Ho') as [A B]; [lia|].
      split; [exact A | lia].
    + destruct (t2_tick_on_open_gate s Ho) as (_ & _ & _ & Hopen & _).
      destruct Hopen as (Ho' & Hr' & _); [lia|].
      destruct (IH (t2_tick s) Ho') as [A B]; [lia|].
      split; [exact A | lia].
    + rewrite (main_loop_keeps_open s Ho). now apply IH.
Qed.

Lemma steps_count_edges (es : list event) (s : machine) :
  gate_open s -> counting s -> count_ticks es < remaining s ->
  counting (steps es s) /\
  pulse_count (steps es s) = (pulse_count s + count_edges es) mod 2 ^ 24.
Proof.
  revert s. induction es as [|e es IH]; intros s Ho Hk Hc.
  - cbn [steps fold_left count_edges]. split; [exact Hk|].
    destruct Hk as (_ & _ & Hf & Ht). unfold pulse_count.
    change (2 ^ 24) with 16777216. rewrite Z.add_0_r, Z.mod_small by lia.
    reflexivity.
  - pose proof (count_ticks_nonneg es) as Hn.
    change (steps (e :: es) s) with (steps es (step e s)).
    destruct e; cbn [count_ticks count_edges step] in *.
    + destruct (t1_edge_keeps_open s Ho) as [Ho' Hr'].
      destruct (t1_edge_counts s Hk) as [Hk' Hp'].
      destruct (IH (t1_edge s) Ho' Hk') as [A B]; [lia|].
      split; [exact A|]. rewrite B, Hp', Zplus_mod_idemp_l. f_equal. lia.
    + destruct (t2_tick_on_open_gate s Ho) as (Ef & Et & Em & Hopen & _).
      destruct Hopen as (Ho' & Hr' & Eb); [lia|].
      assert (Hk' : counting (t2_tick s)).
      { unfold counting in *. rewrite Ef, Et, Em, Eb. exact Hk. }
      destruct (IH (t2_tick s) Ho' Hk') as [A B]; [lia|].
      split; [exact A|]. rewrite B. unfold pulse_count. rewrite Ef, Et.
      reflexivity.
    + rewrite (main_loop_keeps_open s Ho). now apply IH.
Qed.

Lemma steps_frozen (es : list event) (s : machine) :
  timers_stopped s -> no_main_loop es -> steps es s = s.
Proof.
  intros [H1 H2] Hes. induction Hes as [|e es He _ IH]; [reflexivity|].
  change (steps (e :: es) s) with (steps es (step e s)).
  assert (E : step e s = s).
  { destruct e; cbn [step]; [| |contradiction].
    - unfold t1_edge. rewrite H1. reflexivity.
    - unfold t2_tick. rewrite H2. reflexivity. }
  rewrite E. exact IH.
Qed.

Lemma gate_open_start : gate_open start.
Proof. unfold gate_open. vm_compute. intuition congruence. Qed.

(** X1: the Gate Timer from any open gate.  Whatever input edges and loop
    passes come between the ticks, the gate stays open while fewer ticks
    than [remaining] have passed, each tick bringing it one nearer to its
    close; the tick that completes the number raises [dataReady], clears
    [lastSec] and stops both timers, leaving the two counters of Timer 1 as
    they were.  A [secTimer] of 0 counts as 256 roll-overs. *)
Theorem gate_closes_after_remaining_ticks (es : list event) (s : machine) :
  gate_open s ->
  (count_ticks es < remaining s ->
     gate_open (steps es s) /\
     dataReady (steps es s) = false /\
     remaining (steps es s) = remaining s - count_ticks es) /\
  (count_ticks es = remaining s - 1 ->
     let c := steps es s in
     dataReady (t2_tick c) = true /\ lastSec (t2_tick c) = false /\
     timers_stopped (t2_tick c) /\
     freqCounter (t2_tick c) = freqCounter c /\ TCNT1 (t2_tick c) = TCNT1 c).
Proof.
  intros Ho. split.
  - intros Hc. destruct (steps_on_open_gate es s Ho Hc) as [A B].
    split; [exact A|]. split; [exact (proj1 A) | exact B].
  - intros Hc c.
    destruct (steps_on_open_gate es s Ho) as [A B]; [lia|].
    fold c in A, B.
    destruct (t2_tick_on_open_gate c A) as (Ef & Et & _ & _ & Hclose).
    destruct Hclose as (D & L & T); [lia|].
    auto.
Qed.

(** The first gate with edges and idle loop passes between its ticks. *)
Lemma gate_closes_after_remaining_ticks_witness :
  let es := repeat T1_edge 3 ++ repeat T2_tick 300 ++ [Main_loop; T1_edge] in
  let es' := repeat T2_tick 255 ++ T1_edge :: repeat T2_tick 256 in
  let s' := ticks (Z.to_nat 19200) start in
  gate_open start /\ count_ticks es < remaining start /\
  (gate_open (steps es start) /\
   dataReady (steps es start) = false /\
   remaining (steps es start) = remaining start - count_ticks es) /\
  gate_open s' /\ count_ticks es' = remaining s' - 1 /\
  dataReady (t2_tick (steps es' s')) = true /\
  lastSec (t2_tick (steps es' s')) = false /\
  timers_stopped (t2_tick (steps es' s')) /\
  freqCounter (t2_tick (steps es' s')) = freqCounter (steps es' s') /\
  TCNT1 (t2_tick (steps es' s')) = TCNT1 (steps es' s').
Proof.
  intros es es' s'.
  assert (H1 : count_ticks es < remaining start) by (vm_compute; reflexivity).
  assert (H2 : gate_open s') by (unfold gate_open; vm_compute; intuition congruence).
  assert (H3 : count_ticks es' = remaining s' - 1) by (vm_compute; reflexivity).
  split; [exact gate_open_start|]. split; [exact H1|].
  split; [exact (proj1 (gate_closes_after_remaining_ticks es start gate_open_start) H1)|].
  split; [exact H2|]. split; [exact H3|].
  exact (proj2 (gate_closes_after_remaining_ticks es' s' H2) H3).
Defined.

(** X2: while the gate is open, every falling edge on T1 is counted,
    however the edges fall between the ticks and the loop passes: the pair
    (freqCounter, TCNT1) advances by the number of edges, modulo 2^24, and
    both counters stay in their ranges. *)
Theorem edges_counted_while_gate_open (es : list event) (s : machine) :
  gate_open s -> counting s -> count_ticks es < remaining s ->
  counting (steps es s) /\
  pulse_count (steps es s) = (pulse_count s + count_edges es) mod 2 ^ 24.
Proof. exact (steps_count_edges es s). Qed.

Lemma edges_counted_while_gate_open_witness :
  let es := [T1_edge; T2_tick; T1_edge; Main_loop; T2_tick; T1_edge] in
  pulse_count (steps es start) = (pulse_count start + count_edges es) mod 2 ^ 24.
Proof.
  intros es.
  assert (H : count_ticks es < remaining start) by (vm_compute; reflexivity).
  exact (proj2 (edges_counted_while_gate_open es start
                  gate_open_start counting_start H)).
Defined.

(** ** After the gate has closed *)

Lemma t2_tick_raises_dataReady (s : machine) :
  dataReady s = false -> dataReady (t2_tick s) = true ->
  timers_stopped (t2_tick s).
Proof.
  intros Hd. unfold t2_tick. destruct (TCCR2B s =? 7); [|congruence].
  set (s1 := write LTCNT2 (wrap 8 (TCNT2 s + 1)) s).
  assert (Hd1 : dataReady s1 = false)
    by (subst s1; rewrite dataReady_write; exact Hd).
  clearbody s1. clear s Hd.
  destruct (TCNT2 s1 =? 0); [|congruence].
  unfold timer2_overflow. destruct (Z.testbit (TIMSK2 s1) TOIE2).
  - destruct (lastSec s1) eqn:HL.
    + intros _. unfold run. rewrite (ISR_TIMER2_log_final s1 HL).
      destruct s1; split; reflexivity.
    + rewrite (proj2 (ISR_TIMER2_flags s1) HL). congruence.
  - destruct s1; unfold dataReady in *; cbn in *. congruence.
Qed.

Lemma reachable_closed_stopped (s : machine) :
  reachable s -> dataReady s = true -> timers_stopped s.
Proof.
  induction 1 as [|e s Hr IH]; [discriminate|].
  destruct e; cbn [step].
  - destruct (t1_edge_keeps_gate s) as (Ef & _ & Eb1 & _ & Eb2 & _).
    unfold timers_stopped, dataReady in *. rewrite Ef, Eb1, Eb2. exact IH.
  - intros Hd. destruct (dataReady s) eqn:E.
    + destruct (IH eq_refl) as [H1 H2].
      unfold t2_tick in *. rewrite H2 in *. cbn [Z.eqb] in *. now split.
    + now apply t2_tick_raises_dataReady.
  - intros Hd. exfalso. revert Hd. unfold run.
    destruct (dataReady s) eqn:E.
    + rewrite (main_loop_log_ready s E). flag_steps. discriminate.
    + rewrite (main_loop_log_idle s E), replay_nil, E. discriminate.
Qed.

(** X3: once the handler has raised [dataReady], the result is frozen.  In
    every machine the system reaches with [dataReady] up both timers are
    stopped, and no sequence of input edges and prescaler ticks changes
    anything: the machine stays as it is until the loop body runs. *)
Theorem closed_gate_is_frozen (es : list event) (s : machine) :
  reachable s -> dataReady s = true -> no_main_loop es ->
  timers_stopped s /\ steps es s = s.
Proof.
  intros Hr Hd Hes.
  pose proof (reachable_closed_stopped s Hr Hd) as Hs.
  split; [exact Hs | now apply steps_frozen].
Qed.

Lemma closed_gate_is_frozen_witness :
  let s := ticks (Z.to_nat 19712) (edges (Z.to_nat 70000) start) in
  let es := [T1_edge; T1_edge; T2_tick; T1_edge; T2_tick] in
  dataReady s = true /\ timers_stopped s /\ steps es s = s.
Proof.
  intros s es.
  assert (Hd : dataReady s = true) by (vm_compute; reflexivity).
  assert (Hr : reachable s) by (apply reachable_ticks, reachable_edges, reach_start).
  assert (He : no_main_loop es) by (repeat constructor; discriminate).
  split; [exact Hd|].
  exact (closed_gate_is_frozen es s Hr Hd He).
Defined.

(** ** A whole measurement *)

Lemma pulse_count_parts (s : machine) (n : Z) :
  0 <= freqCounter s < 256 -> 0 <= TCNT1 s < 65536 ->
  pulse_count s = n -> TCNT1 s = n mod 65536.
Proof.
  intros Hf Ht <-. unfold pulse_count.
  rewrite Z.add_comm, Z.mod_add by lia.
  symmetry. apply Z.mod_small. exact Ht.
Qed.

(** X4: one measurement, from the opening of a gate to the display.  The
    gate is open with both counters at zero; [es1] is any run of edges,
    ticks and loop passes that holds all ticks of the gate but the last,
    the closing tick follows, and [es2] is whatever edges and ticks arrive
    before the loop body looks.  Then [dataReady] is up and the counters
    hold the number of edges of [es1], modulo 2^24, edges after the close
    not being counted.  When that number is below 2^24 and its low 16 bits
    are below 2^15, the loop body computes exactly that number and sends
    it to the display after clearing line 0. *)
Theorem measurement_counts_edges_in_gate
    (es1 es2 : list event) (s0 : machine) :
  gate_open s0 -> counting s0 -> pulse_count s0 = 0 ->
  count_ticks es1 = remaining s0 - 1 ->
  no_main_loop es2 ->
  let s := steps (es1 ++ T2_tick :: es2) s0 in
  dataReady s = true /\
  pulse_count s = count_edges es1 mod 2 ^ 24 /\
  (count_edges es1 < 2 ^ 24 -> count_edges es1 mod 65536 < 2 ^ 15 ->
     value_of main_frequency s = count_edges es1 /\
     lcd_calls (log_of main_loop_body s) =
       [hd44780_clearLine 0; hd44780_putstr (ltoa (count_edges es1))]).
Proof.
  intros Ho Hk Hp Hc Hes s.
  destruct (steps_on_open_gate es1 s0 Ho) as [Ho1 Hr1]; [lia|].
  destruct (steps_count_edges es1 s0 Ho Hk) as [Hk1 Hp1]; [lia|].
  rewrite Hp, Z.add_0_l in Hp1.
  destruct (t2_tick_on_open_gate _ Ho1) as (Ef & Et & _ & _ & Hclose).
  destruct Hclose as (D & L & T); [lia|].
  assert (Es : s = t2_tick (steps es1 s0)).
  { subst s. rewrite steps_app.
    change (steps (T2_tick :: es2) (steps es1 s0))
      with (steps es2 (t2_tick (steps es1 s0))).
    now apply steps_frozen. }
  rewrite Es. clearbody s. clear Es s.
  set (c := steps es1 s0) in *. set (s := t2_tick c) in *.
  assert (Hps : pulse_count s = count_edges es1 mod 2 ^ 24)
    by (unfold pulse_count; rewrite Ef, Et; exact Hp1).
  destruct Hk1 as (_ & _ & Hf & Ht). rewrite <- Ef in Hf. rewrite <- Et in Ht.
  split; [exact D|]. split; [exact Hps|].
  intros Hn Hlow.
  pose proof (count_edges_nonneg es1) as Hnn.
  rewrite Z.mod_small in Hps by lia.
  assert (E : value_of main_frequency s = count_edges es1).
  { rewrite (main_frequency_cases s Hf Ht).
    pose proof (pulse_count_parts s _ Hf Ht Hps) as Et1.
    change (2 ^ 15) with 32768 in Hlow.
    destruct (Z.ltb_spec (TCNT1 s) 32768); [exact Hps | lia]. }
  split; [exact E|].
  rewrite (main_loop_log_ready s D), E. reflexivity.
Qed.

(** 1000 edges spread over the first gate, and two more after its close. *)
Lemma measurement_counts_edges_in_gate_witness :
  let es1 := repeat T1_edge 400 ++ repeat T2_tick (Z.to_nat 10000) ++
             Main_loop :: repeat T1_edge 600 ++ repeat T2_tick (Z.to_nat 9711) in
  let es2 := [T1_edge; T2_tick; T1_edge] in
  let s := steps (es1 ++ T2_tick :: es2) start in
  dataReady s = true /\
  pulse_count s = count_edges es1 mod 2 ^ 24 /\
  value_of main_frequency s = count_edges es1 /\
  lcd_calls (log_of main_loop_body s) =
    [hd44780_clearLine 0; hd44780_putstr (ltoa (count_edges es1))].
Proof.
  intros es1 es2 s.
  assert (Hp : pulse_count start = 0) by reflexivity.
  assert (Hc : count_ticks es1 = remaining start - 1) by (vm_compute; reflexivity).
  assert (He : no_main_loop es2) by (repeat constructor; discriminate).
  assert (Hn : count_edges es1 < 2 ^ 24) by (vm_compute; reflexivity).
  assert (Hl : count_edges es1 mod 65536 < 2 ^ 15) by (vm_compute; reflexivity).
  subst s.
  destruct (measurement_counts_edges_in_gate es1 es2 start
              gate_open_start counting_start Hp Hc He) as (D & P & F).
  exact (conj D (conj P (F Hn Hl))).
Defined.

(** X5: every cycle opens the same gate.  When the loop body runs in a
    machine the system has reached with [dataReady] up, it leaves the gate
    open, Timer 1 counting from a count of zero, and as many ticks to go as
    at the start of the first gate: (ONE_SEC_GATE + 1) * 256. *)
Theorem restart_opens_full_gate (s : machine) :
  reachable s -> dataReady s = true ->
  let s' := run main_loop_body s in
  gate_open s' /\ counting s' /\ pulse_count s' = 0 /\
  remaining s' = (ONE_SEC_GATE + 1) * 256 /\
  remaining s' = remaining start.
Proof.
  intros Hr Hd s'.
  pose proof (system_inv_flags_exclusive s (reachable_system_inv s Hr)) as Hx.
  rewrite Hd in Hx. cbn [andb] in Hx.
  assert (HL : lastSec s' = false).
  { subst s'. unfold run. rewrite (main_loop_log_ready s Hd).
    flag_steps. exact Hx. }
  assert (HD : dataReady s' = false).
  { subst s'. unfold run. rewrite (main_loop_log_ready s Hd).
    flag_steps. reflexivity. }
  assert (F : secTimer s' = 76 /\ freqCounter s' = 0 /\ TCNT1 s' = 0 /\
              TCNT2 s' = 0 /\ TCCR1B s' = 6 /\ TCCR2B s' = 7 /\
              TIMSK1 s' = 1 /\ TIMSK2 s' = 1).
  { subst s'. unfold run. rewrite (main_loop_log_ready s Hd).
    destruct s; repeat split. }
  clearbody s'.
  destruct F as (Fs & Ff & Ft1 & Ft2 & Fb1 & Fb2 & Fm1 & Fm2).
  unfold gate_open, counting, pulse_count, remaining, rollovers_left.
  rewrite HL, HD, Fs, Ff, Ft1, Ft2, Fb1, Fb2, Fm1, Fm2.
  repeat split; try lia; reflexivity.
Qed.

Lemma restart_opens_full_gate_witness :
  let s := ticks (Z.to_nat 19712) (edges (Z.to_nat 70000) start) in
  let s' := run main_loop_body s in
  dataReady s = true /\
  gate_open s' /\ counting s' /\ pulse_count s' = 0 /\
  remaining s' = (ONE_SEC_GATE + 1) * 256 /\
  remaining s' = remaining start.
Proof.
  intros s s'.
  assert (Hd : dataReady s = true) by (vm_compute; reflexivity).
  assert (Hr : reachable s) by (apply reachable_ticks, reachable_edges, reach_start).
  subst s'. split; [exact Hd|].
  exact (restart_opens_full_gate s Hr Hd).
Defined.

(** ** Setting the timers up *)

Lemma ldiff_1_idem (f : Z) : Z.ldiff (Z.ldiff f 1) 1 = Z.ldiff f 1.
Proof.
  apply Z.bits_inj'. intros n Hn. rewrite !Z.ldiff_spec.
  destruct (Z.testbit f n), (Z.testbit 1 n); reflexivity.
Qed.

Lemma ldiff_1_bits (f n : Z) :
  Z.testbit (Z.ldiff f 1) 0 = false /\
  (0 < n -> Z.testbit (Z.ldiff f 1) n = Z.testbit f n).
Proof.
  split.
  - rewrite Z.ldiff_spec. cbn. apply andb_false_r.
  - intros Hn. rewrite Z.ldiff_spec.
    replace (Z.testbit 1 n) with false; [apply andb_true_r|].
    symmetry. apply (Z.bits_above_log2 1 n); cbn; lia.
Qed.

(** X6: [t1_init] and [t2_init].  [t1_init] leaves Timer 1 stopped with
    its count at zero, its pending overflow flag cleared (the other bits of
    TIFR1 kept) and its overflow interrupt enabled, whatever the timer was
    doing, and touches neither the variables nor Timer 2; [t2_init] does the
    same for Timer 2.  The two can be called in either order, calling one
    twice is calling it once, and a timer that was running is stopped. *)
Theorem timer_inits_compose (s : machine) :
  let s1 := run t1_init s in
  let s2 := run t2_init s in
  (TCCR1A s1 = 0 /\ TCCR1B s1 = 0 /\ TCNT1 s1 = 0 /\ TIMSK1 s1 = 1 /\
   Z.testbit (TIFR1 s1) TOV1 = false /\
   (forall n, 0 < n -> Z.testbit (TIFR1 s1) n = Z.testbit (TIFR1 s) n)) /\
  (flags s1 = flags s /\ secTimer s1 = secTimer s /\
   freqCounter s1 = freqCounter s /\
   TCCR2A s1 = TCCR2A s /\ TCCR2B s1 = TCCR2B s /\ TCNT2 s1 = TCNT2 s /\
   TIFR2 s1 = TIFR2 s /\ TIMSK2 s1 = TIMSK2 s /\ TCNT0 s1 = TCNT0 s) /\
  (TCCR2A s2 = 0 /\ TCCR2B s2 = 0 /\ TCNT2 s2 = 0 /\ TIMSK2 s2 = 1 /\
   Z.testbit (TIFR2 s2) TOV2 = false /\
   (forall n, 0 < n -> Z.testbit (TIFR2 s2) n = Z.testbit (TIFR2 s) n)) /\
  (flags s2 = flags s /\ secTimer s2 = secTimer s /\
   freqCounter s2 = freqCounter s /\
   TCCR1A s2 = TCCR1A s /\ TCCR1B s2 = TCCR1B s /\ TCNT1 s2 = TCNT1 s /\
   TIFR1 s2 = TIFR1 s /\ TIMSK1 s2 = TIMSK1 s /\ TCNT0 s2 = TCNT0 s) /\
  run t1_init (run t2_init s) = run t2_init (run t1_init s) /\
  run t1_init (run t1_init s) = run t1_init s /\
  run t2_init (run t2_init s) = run t2_init s /\
  run t1_init (run timer1On s) = run t1_init s /\
  run t2_init (run timer2On s) = run t2_init s.
Proof.
  destruct s as [fl st fc a1 b1 c1 f1 m1 a2 b2 c2 f2 m2 c0].
  cbv zeta.
  change (run t1_init (mkMachine fl st fc a1 b1 c1 f1 m1 a2 b2 c2 f2 m2 c0))
    with (mkMachine fl st fc 0 0 0 (Z.ldiff f1 1) 1 a2 b2 c2 f2 m2 c0).
  change (run t2_init (mkMachine fl st fc a1 b1 c1 f1 m1 a2 b2 c2 f2 m2 c0))
    with (mkMachine fl st fc a1 b1 c1 f1 m1 0 0 0 (Z.ldiff f2 1) 1 c0).
  cbn [TCCR1A TCCR1B TCNT1 TIFR1 TIMSK1 TCCR2A TCCR2B TCNT2 TIFR2 TIMSK2
       TCNT0 flags secTimer freqCounter].
  split; [|split; [|split; [|split]]].
  - repeat split; try apply (ldiff_1_bits f1 0). intros n Hn.
    now apply ldiff_1_bits.
  - repeat split.
  - repeat split; try apply (ldiff_1_bits f2 0). intros n Hn.
    now apply ldiff_1_bits.
  - repeat split.
  - split; [reflexivity|].
    split.
    { change (run t1_init (mkMachine fl st fc 0 0 0 (Z.ldiff f1 1) 1 a2 b2 c2 f2 m2 c0))
        with (mkMachine fl st fc 0 0 0 (Z.ldiff (Z.ldiff f1 1) 1) 1 a2 b2 c2 f2 m2 c0).
      now rewrite ldiff_1_idem. }
    split.
    { change (run t2_init (mkMachine fl st fc a1 b1 c1 f1 m1 0 0 0 (Z.ldiff f2 1) 1 c0))
        with (mkMachine fl st fc a1 b1 c1 f1 m1 0 0 0 (Z.ldiff (Z.ldiff f2 1) 1) 1 c0).
      now rewrite ldiff_1_idem. }
    split; reflexivity.
Qed.

Lemma timer_inits_compose_witness :
  let s := ticks (Z.to_nat 300) (edges (Z.to_nat 70000) start) in
  TCCR1B s = 6 /\ TCNT1 s = 4464 /\
  TCCR1B (run t1_init s) = 0 /\ TCNT1 (run t1_init s) = 0 /\
  (Z.testbit (TIFR1 (run t1_init s)) 3 = Z.testbit (TIFR1 s) 3) /\
  run t1_init (run t2_init s) = run t2_init (run t1_init s).
Proof.
  intros s.
  destruct (timer_inits_compose s)
    as ((_ & B & C & _ & _ & F) & _ & _ & _ & O & _).
  split; [vm_compute; reflexivity|]. split; [vm_compute; reflexivity|].
  split; [exact B|]. split; [exact C|].
  split; [apply F; reflexivity | exact O].
Defined.


(** ** The number handed to [ltoa] *)

Lemma t1_edge_ranges (s : machine) :
  (0 <= freqCounter s < 256 /\ 0 <= TCNT1 s < 65536) ->
  0 <= freqCounter (t1_edge s) < 256 /\ 0 <= TCNT1 (t1_edge s) < 65536.
Proof.
  intros H. unfold t1_edge. destruct (TCCR1B s =? 6); [|exact H].
  set (s1 := write LTCNT1 (wrap 16 (TCNT1 s + 1)) s).
  assert (H1 : 0 <= freqCounter s1 < 256 /\ 0 <= TCNT1 s1 < 65536).
  { subst s1. destruct s; cbn in *. split; [tauto|].
    apply Z.mod_pos_bound. reflexivity. }
  clearbody s1. destruct (TCNT1 s1 =? 0); [|exact H1].
  unfold timer1_overflow. destruct (Z.testbit (TIMSK1 s1) TOIE1).
  - destruct (ISR_TIMER1_effect s1) as (-> & -> & _).
    split; [apply Z.mod_pos_bound; reflexivity | tauto].
  - destruct s1; exact H1.
Qed.

Lemma reachable_ranges (s : machine) :
  reachable s -> 0 <= freqCounter s < 256 /\ 0 <= TCNT1 s < 65536.
Proof.
  induction 1 as [|e s Hr IH].
  - vm_compute. intuition congruence.
  - destruct e; cbn [step].
    + now apply t1_edge_ranges.
    + destruct (t2_tick_keeps_pulse_counter s) as [-> ->]. exact IH.
    + unfold run. destruct (dataReady s) eqn:E.
      * rewrite (main_loop_log_ready s E). destruct s; cbn. lia.
      * rewrite (main_loop_log_idle s E). exact IH.
Qed.

Lemma main_frequency_range (s : machine) :
  0 <= freqCounter s < 256 -> 0 <= TCNT1 s < 65536 ->
  0 <= value_of main_frequency s < 2 ^ 24 \/
  2 ^ 32 - 2 ^ 15 <= value_of main_frequency s < 2 ^ 32.
Proof.
  intros Hf Ht. rewrite (main_frequency_cases s Hf Ht).
  change (2 ^ 24) with 16777216. change (2 ^ 32) with 4294967296.
  change (2 ^ 15) with 32768.
  destruct (Z.ltb_spec (TCNT1 s) 32768); [left; lia|].
  destruct (Z.eq_dec (freqCounter s) 0) as [E|E].
  - right. rewrite E.
    replace (0 * 65536 + TCNT1 s - 65536)
      with (TCNT1 s + 4294901760 + (-1) * 4294967296) by lia.
    rewrite Z.mod_add by lia. rewrite Z.mod_small by lia. lia.
  - left. rewrite Z.mod_small by lia. lia.
Qed.

Lemma to_long_cases (f : Z) :
  0 <= f < 2 ^ 32 ->
  to_long f = if f <? 2 ^ 31 then f else f - 2 ^ 32.
Proof.
  intros H. unfold to_long, to_signed, wrap.
  change (2 ^ (32 - 1)) with (2 ^ 31).
  rewrite Z.mod_small by exact H. reflexivity.
Qed.

Lemma utoa_acc_length (fuel : nat) :
  forall (k : nat) (n : Z) (acc : string),
    (1 <= k <= fuel)%nat -> 0 <= n < 10 ^ Z.of_nat k ->
    (String.length (utoa_acc fuel n acc) <= k + String.length acc)%nat.
Proof.
  induction fuel as [|fuel IH]; intros k n acc Hk Hn; [lia|].
  cbn [utoa_acc].
  destruct (Z.eqb_spec (n / 10) 0) as [E|E]; [cbn [String.length]; lia|].
  assert (H10 : 10 <= n).
  { destruct (Z_lt_le_dec n 10) as [L|L]; [|exact L].
    exfalso. apply E. apply Z.div_small. lia. }
  assert (Hk2 : (2 <= k)%nat).
  { destruct k as [|[|k]]; [lia| |lia]. cbn in Hn. lia. }
  assert (Hd : 0 <= n / 10 < 10 ^ Z.of_nat (k - 1)).
  { split; [apply Z.div_pos; lia|].
    apply Z.div_lt_upper_bound; [lia|].
    replace (Z.of_nat k) with (1 + Z.of_nat (k - 1)) in Hn by lia.
    rewrite Z.pow_add_r in Hn by lia. exact (proj2 Hn). }
  specialize (IH (k - 1)%nat (n / 10)
                 (String (digit_char (n mod 10)) acc)).
  cbn [String.length] in IH. lia.
Qed.

(** X8: range of the frequency.  In every machine the system reaches, the
    two counters are within their widths, and the number [main] computes
    from them is either below 2^24 or, when freqCounter is 0 and TCNT1 is
    2^15 or more, within 2^15 of 2^32.  Read as the [long] that [ltoa] takes
    it lies between -32768 and 2^24 - 1. *)
Theorem frequency_range (s : machine) :
  reachable s ->
  let f := value_of main_frequency s in
  (0 <= freqCounter s < 256 /\ 0 <= TCNT1 s < 65536) /\
  (0 <= f < 2 ^ 24 \/ 2 ^ 32 - 2 ^ 15 <= f < 2 ^ 32) /\
  (2 ^ 24 <= f -> freqCounter s = 0 /\ 2 ^ 15 <= TCNT1 s) /\
  - 2 ^ 15 <= to_long f < 2 ^ 24.
Proof.
  intros Hr f. destruct (reachable_ranges s Hr) as [Hf Ht].
  pose proof (main_frequency_range s Hf Ht) as R. fold f in R.
  split; [now split|]. split; [exact R|]. split.
  - intros H24. subst f. rewrite (main_frequency_cases s Hf Ht) in H24.
    change (2 ^ 24) with 16777216 in *. change (2 ^ 15) with 32768.
    change (2 ^ 32) with 4294967296 in *.
    destruct (Z.ltb_spec (TCNT1 s) 32768); [lia|].
    split; [|assumption].
    destruct (Z.eq_dec (freqCounter s) 0) as [E|E]; [exact E|].
    rewrite Z.mod_small in H24 by lia. lia.
  - change (2 ^ 24) with 16777216 in *. change (2 ^ 15) with 32768 in *.
    change (2 ^ 32) with 4294967296 in *.
    assert (B : 0 <= f < 2 ^ 32) by (change (2 ^ 32) with 4294967296; lia).
    rewrite (to_long_cases f B).
    change (2 ^ 31) with 2147483648. change (2 ^ 32) with 4294967296.
    destruct (Z.ltb_spec f 2147483648); lia.
Qed.

Lemma frequency_range_witness :
  let s := ticks (Z.to_nat 19712) (edges (Z.to_nat 40000) start) in
  let f := value_of main_frequency s in
  2 ^ 24 <= f /\ freqCounter s = 0 /\ 2 ^ 15 <= TCNT1 s /\
  - 2 ^ 15 <= to_long f < 2 ^ 24.
Proof.
  intros s f.
  assert (Hr : reachable s) by (apply reachable_ticks, reachable_edges, reach_start).
  assert (H24 : 2 ^ 24 <= f) by (vm_compute; discriminate).
  destruct (frequency_range s Hr) as (_ & _ & A & B).
  split; [exact H24|].
  split; [exact (proj1 (A H24))|]. split; [exact (proj2 (A H24)) | exact B].
Defined.

(** X9: the string fits its buffer.  In every machine the system reaches,
    the decimal string the loop body would pass to the display has at most
    8 characters, so with its terminator it fits the 10 bytes of
    [tempStr]. *)
Theorem frequency_string_fits_tempStr (s : machine) :
  reachable s ->
  (String.length (ltoa (value_of main_frequency s)) <= 8)%nat /\
  (String.length (ltoa (value_of main_frequency s)) + 1 <= 10)%nat.
Proof.
  intros Hr. destruct (reachable_ranges s Hr) as [Hf Ht].
  pose proof (main_frequency_range s Hf Ht) as R.
  set (f := value_of main_frequency s) in *.
  change (2 ^ 24) with 16777216 in R. change (2 ^ 15) with 32768 in R.
  change (2 ^ 32) with 4294967296 in R.
  assert (B : 0 <= f < 2 ^ 32) by (change (2 ^ 32) with 4294967296; lia).
  assert (L : (String.length (ltoa f) <= 8)%nat).
  { unfold ltoa. rewrite (to_long_cases f B).
    change (2 ^ 31) with 2147483648. change (2 ^ 32) with 4294967296.
    destruct (Z.ltb_spec f 2147483648) as [H|H].
    - destruct (Z.ltb_spec f 0); [lia|].
      pose proof (utoa_acc_length 10 8 f EmptyString) as U.
      cbn [String.length] in U. rewrite Nat.add_0_r in U. apply U; [lia|].
      change (10 ^ Z.of_nat 8) with 100000000. lia.
    - destruct (Z.ltb_spec (f - 4294967296) 0); [|lia].
      cbn [String.length].
      pose proof (utoa_acc_length 10 5 (- (f - 4294967296)) EmptyString) as U.
      cbn [String.length] in U. rewrite Nat.add_0_r in U.
      assert (String.length (utoa_acc 10 (- (f - 4294967296)) "") <= 5)%nat.
      { apply U; [lia|]. change (10 ^ Z.of_nat 5) with 100000. lia. }
      lia. }
  split; lia.
Qed.

Lemma frequency_string_fits_tempStr_witness :
  let s := ticks (Z.to_nat 19712) (edges (Z.to_nat 40000) start) in
  ltoa (value_of main_frequency s) = "-25536"%string /\
  (String.length (ltoa (value_of main_frequency s)) <= 8)%nat.
Proof.
  intros s.
  assert (Hr : reachable s) by (apply reachable_ticks, reachable_edges, reach_start).
  split; [vm_compute; reflexivity|].
  exact (proj1 (frequency_string_fits_tempStr s Hr)).
Defined.

(** ** Every gate has the same length *)

(** X10: all gates are equally long, whatever the input.  After the loop
    body has restarted the cycle in a machine the system reached with
    [dataReady] up, [dataReady] stays down through any run of edges, ticks
    and loop passes with fewer than (ONE_SEC_GATE + 1) * 256 ticks, and the
    tick that completes that number raises it; the gate that [main] starts
    first behaves in the same way. *)
Theorem every_gate_same_length (s : machine) (es : list event) :
  reachable s -> dataReady s = true ->
  let g := (ONE_SEC_GATE + 1) * 256 in
  (count_ticks es < g ->
     dataReady (steps es (run main_loop_body s)) = false /\
     dataReady (steps es start) = false) /\
  (count_ticks es = g - 1 ->
     dataReady (t2_tick (steps es (run main_loop_body s))) = true /\
     dataReady (t2_tick (steps es start)) = true).
Proof.
  intros Hr Hd g.
  assert (Ho : gate_open (run main_loop_body s) /\
               remaining (run main_loop_body s) = g).
  { pose proof (system_inv_flags_exclusive s (reachable_system_inv s Hr)) as Hx.
    rewrite Hd in Hx. cbn [andb] in Hx.
    unfold run. rewrite (main_loop_log_ready s Hd).
    unfold gate_open, remaining, rollovers_left. flag_steps. rewrite Hx.
    destruct s; cbn. repeat split; (reflexivity || lia || discriminate). }
  destruct Ho as [Ho Hg].
  assert (Hs : remaining start = g) by reflexivity.
  split; intros Hc.
  - split.
    + apply (steps_on_open_gate es _ Ho). lia.
    + apply (steps_on_open_gate es _ gate_open_start). lia.
  - split.
    + destruct (steps_on_open_gate es _ Ho) as [A B]; [lia|].
      destruct (t2_tick_on_open_gate _ A) as (_ & _ & _ & _ & C).
      apply C. lia.
    + destruct (steps_on_open_gate es _ gate_open_start) as [A B]; [lia|].
      destruct (t2_tick_on_open_gate _ A) as (_ & _ & _ & _ & C).
      apply C. lia.
Qed.

(** The second gate, with a 1000-edge burst in its middle. *)
Lemma every_gate_same_length_witness :
  let s := ticks (Z.to_nat 19712) (edges (Z.to_nat 70000) start) in
  let es := repeat T2_tick (Z.to_nat 9000) ++ repeat T1_edge (Z.to_nat 1000) ++
            repeat T2_tick (Z.to_nat 10711) in
  dataReady s = true /\
  count_ticks es = (ONE_SEC_GATE + 1) * 256 - 1 /\
  dataReady (steps es (run main_loop_body s)) = false /\
  dataReady (t2_tick (steps es (run main_loop_body s))) = true.
Proof.
  intros s es.
  assert (Hd : dataReady s = true) by (vm_compute; reflexivity).
  assert (Hr : reachable s) by (apply reachable_ticks, reachable_edges, reach_start).
  assert (Hc : count_ticks es = (ONE_SEC_GATE + 1) * 256 - 1)
    by (vm_compute; reflexivity).
  assert (Hl : count_ticks es < (ONE_SEC_GATE + 1) * 256)
    by (vm_compute; reflexivity).
  split; [exact Hd|]. split; [exact Hc|].
  split.
  - exact (proj1 (proj1 (every_gate_same_length s es Hr Hd) Hl)).
  - exact (proj1 (proj2 (every_gate_same_length s es Hr Hd) Hc)).
Defined.
